(** * quickmapper: extraction of high-value accounts, privileged sessions and
      unconstrained-delegation principals from BloodHound JSON exports

    Shallow embedding of [quickmapper.py].  The program is dynamically typed:
    every value it touches is whatever [json.load] returned, so the model works
    on an untyped JSON value and makes the Python run-time errors
    ([AttributeError], [TypeError]) explicit results.

    Part I is the program, Part II the vocabulary in which its properties
    are stated, Part III the documents and directories used as instances,
    Part IV the lemmas on the loops, Part V the properties, Part VI
    further properties of the extractors, of the driver and of the report. *)

From Stdlib Require Import List String Ascii ZArith QArith Bool Lia.
From Stdlib Require Import Permutation DecimalString.
Import ListNotations.
Local Open Scope string_scope.
Local Open Scope list_scope.

(** * Part I: the program *)

(** ** Values returned by [json.load] *)

(** A JSON number without fraction or exponent is a Python [int]; one with a
    fraction or exponent is a Python [float], kept here as the exact rational
    it denotes (Python compares [int] and [float] exactly).  The non-standard
    literals [NaN] and [Infinity] are outside the model.  A [dict] is the list
    of its items in insertion order; lookups take the first item of a key. *)
#[local] Unset Elimination Schemes.
Inductive json : Type :=
| JNull
| JBool (b : bool)
| JInt (n : Z)
| JFloat (q : Q)
| JStr (s : string)
| JArr (items : list json)
| JObj (fields : list (string * json)).
#[local] Set Elimination Schemes.

Definition type_name (v : json) : string :=
  match v with
  | JNull => "NoneType"
  | JBool _ => "bool"
  | JInt _ => "int"
  | JFloat _ => "float"
  | JStr _ => "str"
  | JArr _ => "list"
  | JObj _ => "dict"
  end.

(** ** Exceptions *)

Inductive exn : Type :=
| AttributeError (msg : string)
| TypeError (msg : string)
| LoadError (msg : string).

(** [str(e)], as interpolated by the f-string of [main]. *)
Definition str_exn (e : exn) : string :=
  match e with
  | AttributeError msg => msg
  | TypeError msg => msg
  | LoadError msg => msg
  end.

Inductive result (A : Type) : Type :=
| Ok (a : A)
| Raise (e : exn).
Arguments Ok {A} a.
Arguments Raise {A} e.

Definition bind {A B} (c : result A) (k : A -> result B) : result B :=
  match c with
  | Ok a => k a
  | Raise e => Raise e
  end.

Notation "x <- c ;; k" := (bind c (fun x => k))
  (at level 61, c at next level, right associativity).

(** A [for] loop whose body may raise: the first exception ends the loop. *)
Fixpoint for_each {A S} (body : S -> A -> result S) (l : list A) (acc : S)
  : result S :=
  match l with
  | [] => Ok acc
  | x :: l' => acc' <- body acc x ;; for_each body l' acc'
  end.

(** ** Python primitives used by the program *)

(** Truth value of an object, as tested by [if]. *)
Definition truthy (v : json) : bool :=
  match v with
  | JNull => false
  | JBool b => b
  | JInt n => negb (n =? 0)%Z
  | JFloat q => negb (Qeq_bool q 0)
  | JStr s => negb (s =? "")
  | JArr items => match items with [] => false | _ => true end
  | JObj fields => match fields with [] => false | _ => true end
  end.

(** Numeric value of the objects of Python's numeric tower ([bool] is a
    subclass of [int]). *)
Definition num_val (v : json) : option Q :=
  match v with
  | JBool b => Some (if b then 1 else 0)%Q
  | JInt n => Some (inject_Z n)
  | JFloat q => Some q
  | _ => None
  end.

(** [a == b].  Numbers compare by value across [bool], [int] and [float];
    [None] and strings compare with their own kind only.  The program never
    compares two containers (they are unhashable, and the only literal it
    compares with is [1]), so that case is left [false]. *)
Definition py_eq (a b : json) : bool :=
  match num_val a, num_val b with
  | Some x, Some y => Qeq_bool x y
  | None, None =>
      match a, b with
      | JNull, JNull => true
      | JStr s, JStr t => (s =? t)%string
      | _, _ => false
      end
  | _, _ => false
  end.

Definition hashable (v : json) : bool :=
  match v with
  | JArr _ | JObj _ => false
  | _ => true
  end.

(** The exception raised on hashing a list or a dict. *)
Definition unhashable (v : json) : exn :=
  TypeError ("unhashable type: '" ++ type_name v ++ "'").

Fixpoint assoc {V} (k : string) (m : list (string * V)) : option V :=
  match m with
  | [] => None
  | (k', v) :: m' => if (k =? k')%string then Some v else assoc k m'
  end.

(** [d.get(k, default)] on a dict. *)
Definition dict_get (m : list (string * json)) (k : string) (default : json)
  : json :=
  match assoc k m with
  | Some v => v
  | None => default
  end.

(** The attribute lookup [o.get]: only a dict has it. *)
Definition attr_get (o : json) : result (list (string * json)) :=
  match o with
  | JObj m => Ok m
  | _ => Raise (AttributeError
                  ("'" ++ type_name o ++ "' object has no attribute 'get'"))
  end.

(** [o.get(k, default)]. *)
Definition py_get (o : json) (k : string) (default : json) : result json :=
  m <- attr_get o ;; Ok (dict_get m k default).

(** The items a [for] loop over [o] visits: the elements of a list, the keys
    of a dict, the one-character strings of a string. *)
Definition py_iter (o : json) : result (list json) :=
  match o with
  | JArr items => Ok items
  | JObj fields => Ok (map (fun kv => JStr (fst kv)) fields)
  | JStr s => Ok (map (fun c => JStr (String c EmptyString))
                      (list_ascii_of_string s))
  | _ => Raise (TypeError ("'" ++ type_name o ++ "' object is not iterable"))
  end.

(** ** [defaultdict] *)

(** A [defaultdict] as the list of its items in insertion order.  [dd_upd]
    is [d[k] = f(d[k])] where reading a missing key first inserts the
    default at the end; [dd_read] is the value [d[k]] reads. *)
Section DefaultDict.
Variables K V : Type.
Variable eqb : K -> K -> bool.
Variable default : V.

Fixpoint dd_upd (f : V -> V) (k : K) (d : list (K * V)) : list (K * V) :=
  match d with
  | [] => [(k, f default)]
  | (k', v) :: d' =>
      if eqb k k' then (k', f v) :: d' else (k', v) :: dd_upd f k d'
  end.

Fixpoint dd_read (k : K) (d : list (K * V)) : V :=
  match d with
  | [] => default
  | (k', v) :: d' => if eqb k k' then v else dd_read k d'
  end.
End DefaultDict.
Arguments dd_upd {K V} eqb default f k d.
Arguments dd_read {K V} eqb default k d.

(** ** [set] *)

(** A set of hashable objects as the list of its elements, no two of them
    equal under [==]. *)
Definition pyset := list json.

Definition set_mem (x : json) (s : pyset) : bool := existsb (py_eq x) s.

(** [s.add(x)] for a hashable [x]. *)
Definition set_add (x : json) (s : pyset) : pyset :=
  if set_mem x s then s else s ++ [x].

(** [s.update(t)]. *)
Definition set_update (s t : pyset) : pyset :=
  fold_left (fun acc x => set_add x acc) t s.

(** [x in s]: hashes [x] first. *)
Definition py_in (x : json) (s : pyset) : result bool :=
  if hashable x then Ok (set_mem x s) else Raise (unhashable x).

(** [set(l)]. *)
Definition py_set (l : list json) : result pyset :=
  for_each (fun s x => if hashable x then Ok (set_add x s)
                       else Raise (unhashable x)) l [].

(** ** The three extractors *)

Definition targets := list (string * list json).
Definition sessions := list (json * pyset).

Definition tg_append (k : string) (name : json) (d : targets) : targets :=
  dd_upd String.eqb [] (fun l => l ++ [name]) k d.

(** The body of the loop over the nodes.  Once [properties.get("name", ...)]
    has not raised, [properties] is a dict, [props] below. *)
Definition hv_node (high_value_accounts : targets) (node : json)
  : result targets :=
  properties <- py_get node "properties" (JObj []) ;;
  props <- attr_get properties ;;
  let name := dict_get props "name" (JStr "Unknown") in
  let acc := high_value_accounts in
  let acc := if truthy (dict_get props "highvalue" (JBool false))
             then tg_append "High Value" name acc else acc in
  let acc := if match assoc "admincount" props with
                | Some v => py_eq v (JInt 1)
                | None => false
                end
             then tg_append "Domain Admins / Enterprise Admins" name acc
             else acc in
  let acc := if truthy (dict_get props "hasspn" (JBool false))
             then tg_append "Kerberoastable Accounts" name acc else acc in
  let acc := if truthy (dict_get props "unconstraineddelegation" (JBool false))
             then tg_append "Unconstrained Delegation" name acc else acc in
  let acc := if truthy (dict_get props "allowedtodelegate" (JBool false))
             then tg_append "Allowed to Delegate" name acc else acc in
  Ok acc.

Definition extract_high_value_targets (bloodhound_json : json)
  : result targets :=
  nodes <- py_get bloodhound_json "nodes" (JArr []) ;;
  items <- py_iter nodes ;;
  for_each hv_node items [].

Definition session_step (high_priv_accounts : pyset) (host : json)
  (session_data : sessions) (session : json) : result sessions :=
  user <- py_get session "user" (JObj []) ;;
  username <- py_get user "name" (JStr "") ;;
  privileged <- py_in username high_priv_accounts ;;
  if privileged
  then if hashable host
       then Ok (dd_upd py_eq [] (set_add username) host session_data)
       else Raise (unhashable host)
  else Ok session_data.

Definition sess_node (high_priv_accounts : pyset) (session_data : sessions)
  (node : json) : result sessions :=
  properties <- py_get node "properties" (JObj []) ;;
  host <- py_get properties "name" (JStr "Unknown") ;;
  node_sessions <- py_get node "sessions" (JArr []) ;;
  items <- py_iter node_sessions ;;
  for_each (session_step high_priv_accounts host) items session_data.

Definition extract_sessions (bloodhound_json : json)
  (high_priv_accounts : pyset) : result sessions :=
  nodes <- py_get bloodhound_json "nodes" (JArr []) ;;
  items <- py_iter nodes ;;
  for_each (sess_node high_priv_accounts) items [].

Definition deleg_node (delegation_targets : list json) (node : json)
  : result (list json) :=
  properties <- py_get node "properties" (JObj []) ;;
  name <- py_get properties "name" (JStr "Unknown") ;;
  flag <- py_get properties "unconstraineddelegation" (JBool false) ;;
  Ok (if truthy flag then delegation_targets ++ [name]
      else delegation_targets).

Definition extract_unconstrained_delegation_principals (bloodhound_json : json)
  : result (list json) :=
  nodes <- py_get bloodhound_json "nodes" (JArr []) ;;
  items <- py_iter nodes ;;
  for_each deleg_node items [].

(** ** The driver *)

(** What [main] sees of the outside world: the line typed at the prompt, the
    file system ([os.path.isdir], [os.listdir], taken to succeed on a
    directory) and [load_json], whose result is the parsed document or the
    exception raised by [open] or [json.load]. *)
Record world : Type := {
  input : string;
  isdir : string -> bool;
  listdir : string -> list string;
  load_json : string -> result json
}.

(** The three running collections of [main]. *)
Record collections : Type := {
  high_value_targets : targets;
  all_sessions : sessions;
  unconstrained_delegation_targets : list json
}.

Definition empty_collections : collections :=
  {| high_value_targets := [];
     all_sessions := [];
     unconstrained_delegation_targets := [] |}.

(** Standard output: the prompt written by [input], the lines printed by
    [main], and the call of [print_results] with the three collections it
    renders (the rendering itself is not modelled). *)
Inductive output : Type :=
| Prompt (text : string)
| Print (line : string)
| PrintResults (t : targets) (s : sessions) (u : list json).

(** [s.endswith(suffix)]. *)
Definition endswith (s suffix : string) : bool :=
  let n := String.length s in
  let m := String.length suffix in
  (m <=? n)%nat && (substring (n - m) m s =? suffix)%string.

(** [os.path.join(a, b)] on POSIX. *)
Definition path_join (a b : string) : string :=
  if prefix "/" b then b
  else if (a =? "")%string || endswith a "/" then a ++ b
  else a ++ "/" ++ b.

(** [for key, value in extracted_targets.items():
        high_value_targets[key].extend(value)] *)
Definition merge_targets (high_value_targets extracted : targets) : targets :=
  fold_left (fun d kv => dd_upd String.eqb [] (fun l => l ++ snd kv) (fst kv) d)
            extracted high_value_targets.

(** [for key, value in extracted_sessions.items():
        all_sessions[key].update(value)] *)
Definition merge_sessions (all_sessions extracted : sessions) : sessions :=
  fold_left (fun d kv => dd_upd py_eq [] (fun s => set_update s (snd kv))
                                (fst kv) d)
            extracted all_sessions.

(** The body of the [try] block for one file.  The running collections are
    mutated in place, so what was merged before an exception stays merged:
    the body returns the collections together with its outcome. *)
Definition process_file (loaded : result json) (c : collections)
  : collections * result unit :=
  match loaded with
  | Raise e => (c, Raise e)
  | Ok bloodhound_data =>
    match extract_high_value_targets bloodhound_data with
    | Raise e => (c, Raise e)
    | Ok extracted_targets =>
      let hvt := merge_targets (high_value_targets c) extracted_targets in
      (* the two subscripts insert a missing category with an empty list *)
      let hvt := dd_upd String.eqb [] (fun l => l)
                        "Domain Admins / Enterprise Admins" hvt in
      let hvt := dd_upd String.eqb [] (fun l => l) "High Value" hvt in
      let c1 := {| high_value_targets := hvt;
                   all_sessions := all_sessions c;
                   unconstrained_delegation_targets :=
                     unconstrained_delegation_targets c |} in
      match py_set (dd_read String.eqb []
                            "Domain Admins / Enterprise Admins" hvt ++
                    dd_read String.eqb [] "High Value" hvt) with
      | Raise e => (c1, Raise e)
      | Ok high_priv_accounts =>
        match extract_sessions bloodhound_data high_priv_accounts with
        | Raise e => (c1, Raise e)
        | Ok extracted_sessions =>
          let c2 := {| high_value_targets := hvt;
                       all_sessions :=
                         merge_sessions (all_sessions c) extracted_sessions;
                       unconstrained_delegation_targets :=
                         unconstrained_delegation_targets c |} in
          match extract_unconstrained_delegation_principals
                  bloodhound_data with
          | Raise e => (c2, Raise e)
          | Ok delegation_targets =>
            ({| high_value_targets := hvt;
                all_sessions := all_sessions c2;
                unconstrained_delegation_targets :=
                  unconstrained_delegation_targets c ++ delegation_targets |},
             Ok tt)
          end
        end
      end
    end
  end.

(** The [for filename in os.listdir(folder)] loop: the collections after the
    loop and the lines printed by it. *)
Fixpoint process_files (w : world) (folder : string) (names : list string)
  (c : collections) : collections * list output :=
  match names with
  | [] => (c, [])
  | filename :: rest =>
    if endswith filename ".json" then
      let file_path := path_join folder filename in
      let (c', r) := process_file (load_json w file_path) c in
      let (c'', out) := process_files w folder rest c' in
      (c'',
       Print ("Processing " ++ file_path ++ "...") ::
       match r with
       | Ok _ => out
       | Raise e =>
           Print ("Error processing " ++ filename ++ ": " ++ str_exn e) :: out
       end)
    else process_files w folder rest c
  end.

Definition print_results (c : collections) : output :=
  PrintResults (high_value_targets c) (all_sessions c)
               (unconstrained_delegation_targets c).

Definition main (w : world) : list output :=
  let folder := input w in
  Prompt "Enter the path to your BloodHound JSON files: " ::
  if negb (isdir w folder)
  then [Print "Invalid directory. Please enter a valid path."]
  else
    let (c, out) := process_files w folder (listdir w folder)
                                  empty_collections in
    out ++ [print_results c].

(** * Part II: vocabulary of the properties *)

(** ** What the extractors read of a document *)

(** The items of [bloodhound_json.get("nodes", [])], as the three loops
    visit them. *)
Definition doc_nodes (bloodhound_json : json) : result (list json) :=
  nodes <- py_get bloodhound_json "nodes" (JArr []) ;; py_iter nodes.

(** A node the loops get through: a dict whose [properties] entry, when
    present, is a dict. *)
Definition node_ok (node : json) : bool :=
  match node with
  | JObj m => match dict_get m "properties" (JObj []) with
              | JObj _ => true
              | _ => false
              end
  | _ => false
  end.

(** [node.get("properties", {})] of a readable node. *)
Definition node_props (node : json) : list (string * json) :=
  match node with
  | JObj m => match dict_get m "properties" (JObj []) with
              | JObj p => p
              | _ => []
              end
  | _ => []
  end.

(** Display name: [properties.get("name", "Unknown")]. *)
Definition node_name (node : json) : json :=
  dict_get (node_props node) "name" (JStr "Unknown").

(** [properties.get(flag, False)] taken as a condition. *)
Definition node_flag (flag : string) (node : json) : bool :=
  truthy (dict_get (node_props node) flag (JBool false)).

(** ["admincount" in properties and properties["admincount"] == 1] *)
Definition node_admin (node : json) : bool :=
  match assoc "admincount" (node_props node) with
  | Some v => py_eq v (JInt 1)
  | None => false
  end.

(** The predicate that puts a node in a category. *)
Definition in_category (category : string) (node : json) : bool :=
  if (category =? "High Value")%string then node_flag "highvalue" node
  else if (category =? "Domain Admins / Enterprise Admins")%string
       then node_admin node
  else if (category =? "Kerberoastable Accounts")%string
       then node_flag "hasspn" node
  else if (category =? "Unconstrained Delegation")%string
       then node_flag "unconstraineddelegation" node
  else if (category =? "Allowed to Delegate")%string
       then node_flag "allowedtodelegate" node
  else false.

(** The list a category holds, [d[category]] (empty when never appended). *)
Definition category (c : string) (d : targets) : list json :=
  dd_read String.eqb [] c d.

(** The set a host holds in a session map. *)
Definition sessions_at (host : json) (d : sessions) : pyset :=
  dd_read py_eq [] host d.

(** ** The effect of one node, one session, one file *)

(** The appends one node causes, in the order of the five tests. *)
Definition hv_apply (node : json) (acc : targets) : targets :=
  let name := node_name node in
  let acc := if node_flag "highvalue" node
             then tg_append "High Value" name acc else acc in
  let acc := if node_admin node
             then tg_append "Domain Admins / Enterprise Admins" name acc
             else acc in
  let acc := if node_flag "hasspn" node
             then tg_append "Kerberoastable Accounts" name acc else acc in
  let acc := if node_flag "unconstraineddelegation" node
             then tg_append "Unconstrained Delegation" name acc else acc in
  let acc := if node_flag "allowedtodelegate" node
             then tg_append "Allowed to Delegate" name acc else acc in
  acc.

(** No two elements of [s] are equal under [==]. *)
Fixpoint distinct (s : pyset) : bool :=
  match s with
  | [] => true
  | x :: s' => negb (set_mem x s') && distinct s'
  end.

(** A session the inner loop gets through: a dict whose [user] entry, when
    present, is a dict with a hashable [name]. *)
Definition session_ok (session : json) : bool :=
  match session with
  | JObj m => match dict_get m "user" (JObj []) with
              | JObj u => hashable (dict_get u "name" (JStr ""))
              | _ => false
              end
  | _ => false
  end.

(** [session.get("user", {}).get("name", "")] *)
Definition session_username (session : json) : json :=
  match session with
  | JObj m => match dict_get m "user" (JObj []) with
              | JObj u => dict_get u "name" (JStr "")
              | _ => JNull
              end
  | _ => JNull
  end.

(** The items of [node.get("sessions", [])]. *)
Definition node_sessions (node : json) : result (list json) :=
  match node with
  | JObj m => py_iter (dict_get m "sessions" (JArr []))
  | _ => Ok []
  end.

(** The usernames of a node's sessions that are in the privileged set, in
    session order. *)
Definition priv_users (high_priv_accounts : pyset) (node : json) : list json :=
  match node_sessions node with
  | Ok items => filter (fun u => set_mem u high_priv_accounts)
                       (map session_username items)
  | Raise _ => []
  end.

(** A node the session loop gets through. *)
Definition sess_node_ok (high_priv_accounts : pyset) (node : json) : bool :=
  node_ok node &&
  match node_sessions node with
  | Ok items => forallb session_ok items
  | Raise _ => false
  end &&
  (hashable (node_name node) ||
   match priv_users high_priv_accounts node with [] => true | _ => false end).

(** The privileged usernames a document shows logged in on [host]. *)
Definition host_users (high_priv_accounts : pyset) (host : json)
  (nodes : list json) : list json :=
  flat_map (fun node => if py_eq host (node_name node)
                        then priv_users high_priv_accounts node else [])
           nodes.

(** The users the inner loop over [items] adds for its host. *)
Definition step_users (priv : pyset) (items : list json) : list json :=
  filter (fun u => set_mem u priv) (map session_username items).

(** Every user set of a session map satisfies [Q]. *)
Definition all_sets (Q : pyset -> Prop) (sd : sessions) : Prop :=
  forall h s, In (h, s) sd -> Q s.

Definition DA : string := "Domain Admins / Enterprise Admins".
Definition HV : string := "High Value".

(** The list [set(...)] is applied to in [main]. *)
Definition priv_list (c : collections) : list json :=
  category DA (high_value_targets c) ++ category HV (high_value_targets c).

(** An output other than the report. *)
Definition is_print (o : output) : bool :=
  match o with
  | Prompt _ | Print _ => true
  | PrintResults _ _ _ => false
  end.

(** The values that compare equal to the integer 1. *)
Definition equals_one (v : json) : Prop :=
  v = JInt 1 \/ v = JBool true \/ exists q, v = JFloat q /\ (q == 1)%Q.

(** The "High Value" names one directory entry contributes: those extracted
    from it when it is a [.json] file that loads and on which the high-value
    extractor returns. *)
Definition file_high_value (w : world) (folder filename : string)
  : list json :=
  if endswith filename ".json" then
    match load_json w (path_join folder filename) with
    | Ok doc => match extract_high_value_targets doc with
                | Ok hv => category "High Value" hv
                | Raise _ => []
                end
    | Raise _ => []
    end
  else [].

(** The usernames of the running session map are all privileged according
    to the running high-value lists. *)
Definition sessions_privileged (c : collections) : Prop :=
  forall host users u,
    In (host, users) (all_sessions c) -> In u users ->
    existsb (py_eq u) (priv_list c) = true.

(** A file that cannot be loaded, or on which the high-value extractor
    raises, fails before anything is merged. *)
Definition fails_before_merge (w : world) (folder filename : string)
  (e : exn) : Prop :=
  load_json w (path_join folder filename) = Raise e \/
  exists doc, load_json w (path_join folder filename) = Ok doc /\
              extract_high_value_targets doc = Raise e.

(** * Part III: documents and directories used as instances *)

Definition example_doc : json :=
  JObj [("nodes", JArr [
    JObj [("properties", JObj [("name", JStr "A"); ("highvalue", JBool true)])];
    JObj [("properties", JObj [("name", JStr "B"); ("admincount", JInt 1);
                               ("unconstraineddelegation", JBool true)]);
          ("sessions", JArr [JObj [("user", JObj [("name", JStr "A")])]])]])].

Definition example_collections : collections :=
  fst (process_file (Ok example_doc) empty_collections).

Definition admin_true_node : json :=
  JObj [("properties", JObj [("name", JStr "X"); ("admincount", JBool true)])].

Definition admin_doc : json :=
  JObj [("nodes", JArr [
    admin_true_node;
    JObj [("properties", JObj [("name", JStr "Y"); ("admincount", JInt 1)])];
    JObj [("properties", JObj [("name", JStr "Z"); ("admincount", JInt 0)])];
    JObj [("properties", JObj [("name", JStr "W")])]])].

Definition hv_doc_1 : json :=
  JObj [("nodes", JArr [
    JObj [("properties", JObj [("name", JStr "A"); ("highvalue", JBool true)])];
    JObj [("properties", JObj [("name", JStr "B")])];
    JObj [("properties", JObj [("name", JStr "A"); ("highvalue", JBool true)])]
  ])].

Definition later_doc : json :=
  JObj [("nodes", JArr [
    JObj [("properties", JObj [("name", JStr "X"); ("highvalue", JBool true)])]
  ])].

Definition earlier_doc : json :=
  JObj [("nodes", JArr [
    JObj [("properties", JObj [("name", JStr "H")]);
          ("sessions", JArr [JObj [("user", JObj [("name", JStr "X")])]])]])].

Definition anonymous_session_doc : json :=
  JObj [("nodes", JArr [
    JObj [("properties", JObj [("name", JStr ""); ("highvalue", JBool true)])];
    JObj [("properties", JObj [("name", JStr "H")]);
          ("sessions", JArr [JObj []])]])].

Definition twice_doc : json :=
  JObj [("nodes", JArr [
    JObj [("properties", JObj [("name", JStr "HOST")]);
          ("sessions", JArr [JObj [("user", JObj [("name", JStr "ADMIN")])];
                             JObj [("user", JObj [("name", JStr "ADMIN")])]])]
  ])].

Definition delegation_doc : json :=
  JObj [("nodes", JArr [
    JObj [("properties", JObj [("name", JStr "SRV2");
                               ("unconstraineddelegation", JBool true)])];
    JObj [("properties", JObj [("name", JStr "WS1");
                               ("unconstraineddelegation", JBool false)])];
    JObj [("properties", JObj [("name", JStr "SRV1");
                               ("unconstraineddelegation", JBool true)])];
    JObj [("properties", JObj [("name", JStr "SRV2");
                               ("unconstraineddelegation", JBool true)])]])].

Definition late_failure_doc : json :=
  JObj [("nodes", JArr [
    JObj [("properties", JObj [("name", JStr "A"); ("highvalue", JBool true)]);
          ("sessions", JNull)]])].

Definition late_failure_world : world :=
  {| input := "exports";
     isdir := fun p => (p =? "exports")%string;
     listdir := fun _ => ["late.json"];
     load_json := fun _ => Ok late_failure_doc |}.

Definition two_file_world : world :=
  {| input := "exports";
     isdir := fun p => (p =? "exports")%string;
     listdir := fun _ => ["bad.json"; "good.json"];
     load_json := fun p =>
       if (p =? "exports/good.json")%string then Ok example_doc
       else Raise (LoadError "Expecting value: line 1 column 1 (char 0)") |}.

Definition truthy_flags_doc : json :=
  JObj [("nodes", JArr [
    JObj [("properties", JObj [("name", JStr "N");
                               ("highvalue", JStr "false");
                               ("hasspn", JInt 2);
                               ("unconstraineddelegation", JStr "false");
                               ("allowedtodelegate", JInt 2)])]])].

(** * Part III-b: the report and the vocabulary of the further properties *)

(** ** [print_results] *)

Definition esc : string := String "027"%char EmptyString.
Definition nl : string := String "010"%char EmptyString.

(** [str(n)] for the result of [len]. *)
Definition decimal (n : nat) : string := NilZero.string_of_uint (Nat.to_uint n).

(** The strings [print_results] passes to [print], one per call, in order.
    [py_str] stands for the interpolation [{v}] of an object in an f-string
    and [iter_set] for the order in which a [for] loop visits a set, which
    Python leaves open. *)
Section Report.
Variable py_str : json -> string.
Variable iter_set : pyset -> list json.

Definition bullet (v : json) : string := ("  - " ++ py_str v)%string.

Definition category_block (kv : string * list json) : list string :=
  (esc ++ "[1;34m" ++ fst kv ++ esc ++ "[0m ("
       ++ decimal (List.length (snd kv)) ++ " found):")%string
  :: map bullet (snd kv) ++ [nl].

Definition host_block (kv : json * pyset) : list string :=
  (esc ++ "[1;34m" ++ py_str (fst kv) ++ esc ++ "[0m ("
       ++ decimal (List.length (snd kv))
       ++ " privileged users logged in):")%string
  :: map bullet (iter_set (snd kv)) ++ [nl].

Definition none_found : string :=
  ("  No Unconstrained Delegation principals found." ++ nl)%string.

Definition print_results_lines (t : targets) (s : sessions) (u : list json)
  : list string :=
  [(nl ++ esc ++ "[1;32mTop Accounts to Target (BloodHound Analysis)"
       ++ esc ++ "[0m" ++ nl)%string]
  ++ flat_map category_block t
  ++ [(nl ++ esc
          ++ "[1;32mPrivileged User Sessions (Lateral Movement Targets)"
          ++ esc ++ "[0m" ++ nl)%string]
  ++ flat_map host_block s
  ++ [(nl ++ esc ++ "[1;32mPrincipals Trusted for Unconstrained Delegation"
          ++ esc ++ "[0m" ++ nl)%string]
  ++ match u with
     | [] => [none_found]
     | _ => map bullet u
     end.
End Report.

(** ** Vocabulary *)

(** The five labels [extract_high_value_targets] appends under. *)
Definition category_labels : list string :=
  ["High Value"; "Domain Admins / Enterprise Admins";
   "Kerberoastable Accounts"; "Unconstrained Delegation";
   "Allowed to Delegate"].

(** The exception of [o.get] on an object that is not a dict. *)
Definition no_attribute_get (o : json) : exn :=
  AttributeError ("'" ++ type_name o ++ "' object has no attribute 'get'").

(** The exception the three loops raise on a node that is not readable:
    that of [node.get] when the node is not a dict, else that of
    [properties.get]. *)
Definition node_error (node : json) : exn :=
  match node with
  | JObj m => no_attribute_get (dict_get m "properties" (JObj []))
  | _ => no_attribute_get node
  end.

(** The first node of a document the loops cannot read. *)
Definition first_unreadable (nodes : list json) : option json :=
  find (fun node => negb (node_ok node)) nodes.

(** A high-value result as the extractor builds it: each label once, among
    the five, with at least one name. *)
Definition targets_wf (hv : targets) : Prop :=
  NoDup (map fst hv) /\
  forall k l, In (k, l) hv -> In k category_labels /\ l <> [].

(** A session map as the program builds it: no two hosts equal under [==],
    every host hashable, every user set non-empty and without repetition. *)
Definition sessions_wf (d : sessions) : Prop :=
  distinct (map fst d) = true /\
  forall h s, In (h, s) d ->
    hashable h = true /\ s <> [] /\ distinct s = true.

(** The running high-value lists after the merge of [hv] and the two
    subscripts of [main]. *)
Definition merged_targets (running hv : targets) : targets :=
  dd_upd String.eqb [] (fun l => l) "High Value"
    (dd_upd String.eqb [] (fun l => l) "Domain Admins / Enterprise Admins"
       (merge_targets running hv)).

(** [c'] holds everything [c] holds: each category list and the delegation
    list of [c] is a prefix of that of [c'], and every user of a host in
    [c] is a user of that host in [c']. *)
Definition extends (c c' : collections) : Prop :=
  (forall k, exists l, category k (high_value_targets c') =
                       category k (high_value_targets c) ++ l) /\
  (exists l, unconstrained_delegation_targets c' =
             unconstrained_delegation_targets c ++ l) /\
  (forall h u, set_mem u (sessions_at h (all_sessions c)) = true ->
               set_mem u (sessions_at h (all_sessions c')) = true).

(** The entries of a listing the loop of [main] processes. *)
Definition is_json (filename : string) : bool := endswith filename ".json".

Definition processing_line (folder filename : string) : output :=
  Print ("Processing " ++ path_join folder filename ++ "...").

Definition is_processing_line (o : output) : bool :=
  match o with
  | Print line => prefix "Processing " line
  | _ => false
  end.

(** [str] on the strings, for reports of collections whose names are all
    strings. *)
Definition report_text (v : json) : string :=
  match v with
  | JStr s => s
  | _ => ""
  end.

(** The running high-value lists as [main] keeps them: each label once,
    among the five, and an empty list only under the two labels [main]
    subscripts; and the two are there as soon as any label is. *)
Definition running_targets_wf (t : targets) : Prop :=
  NoDup (map fst t) /\
  (forall k l, In (k, l) t ->
     In k category_labels /\ (l = [] -> k = DA \/ k = HV)) /\
  (t <> [] -> In DA (map fst t) /\ In HV (map fst t)).

(** A high-value account whose name is a list. *)
Definition list_name_doc : json :=
  JObj [("nodes", JArr [
    JObj [("properties", JObj [("name", JArr [JStr "x"]);
                               ("highvalue", JBool true)])]])].

Definition one_file_world (doc : json) : world :=
  {| input := "exports";
     isdir := fun p => (p =? "exports")%string;
     listdir := fun _ => ["notes.txt"; "a.json"; "b.json.bak"];
     load_json := fun _ => Ok doc |}.


(** ** [main] with the failures of [input] and [os.listdir] *)

(** The exceptions of [input] (end of input) and of [os.listdir] (a
    directory that cannot be read, or that is gone since [os.path.isdir]);
    both calls are outside the [try] block, so [main] catches neither. *)
Inductive os_exn : Type :=
| EOFError
| OSError (msg : string).

Inductive os_result (A : Type) : Type :=
| Returned (a : A)
| Raised (e : os_exn).
Arguments Returned {A} a.
Arguments Raised {A} e.

(** The outside world with these failures. *)
Record os_world : Type := {
  os_input : os_result string;
  os_isdir : string -> bool;
  os_listdir : string -> os_result (list string);
  os_load_json : string -> result json
}.

(** The world of the loop once the prompt was answered with [folder] and
    the listing returned [names]. *)
Definition world_of (w : os_world) (folder : string) (names : list string)
  : world :=
  {| input := folder;
     isdir := os_isdir w;
     listdir := fun _ => names;
     load_json := os_load_json w |}.

(** [main] in such a world: what it wrote to standard output, and the
    exception that ended it when one escaped.  [input] writes the prompt
    before it reads.  Standard output is taken to accept every write. *)
Definition run_main (w : os_world) : list output * option os_exn :=
  let prompt := Prompt "Enter the path to your BloodHound JSON files: " in
  match os_input w with
  | Raised e => ([prompt], Some e)
  | Returned folder =>
    if negb (os_isdir w folder)
    then ([prompt; Print "Invalid directory. Please enter a valid path."],
          None)
    else
      match os_listdir w folder with
      | Raised e => ([prompt], Some e)
      | Returned names =>
        let (c, out) := process_files (world_of w folder names) folder names
                                      empty_collections in
        (prompt :: out ++ [print_results c], None)
      end
  end.

(** A directory that exists and cannot be listed. *)
Definition locked_directory_world : os_world :=
  {| os_input := Returned "locked";
     os_isdir := fun p => (p =? "locked")%string;
     os_listdir := fun _ =>
       Raised (OSError "[Errno 13] Permission denied: 'locked'");
     os_load_json := fun _ => Ok example_doc |}.

(** A path that is no directory. *)
Definition missing_directory_world : os_world :=
  {| os_input := Returned "";
     os_isdir := fun _ => false;
     os_listdir := fun _ =>
       Raised (OSError "[Errno 2] No such file or directory: ''");
     os_load_json := fun _ => Ok example_doc |}.

(** * Part IV: lemmas *)

(** ** Properties of the primitives *)

Lemma bind_ok {A B} (c : result A) (k : A -> result B) (b : B) :
  bind c k = Ok b -> exists a, c = Ok a /\ k a = Ok b.
Proof. destruct c as [a|e]; simpl; intros H; [eauto | discriminate]. Qed.

Lemma Qeq_bool_symm (x y : Q) : Qeq_bool x y = Qeq_bool y x.
Proof.
  destruct (Qeq_bool x y) eqn:E, (Qeq_bool y x) eqn:F; try reflexivity.
  - apply Qeq_bool_iff in E. symmetry in E. apply Qeq_bool_iff in E. congruence.
  - apply Qeq_bool_iff in F. symmetry in F. apply Qeq_bool_iff in F. congruence.
Qed.

Lemma Qeq_bool_transitive (x y z : Q) :
  Qeq_bool x y = true -> Qeq_bool y z = true -> Qeq_bool x z = true.
Proof.
  rewrite !Qeq_bool_iff. intros H1 H2. now rewrite H1.
Qed.

Lemma py_eq_sym (a b : json) : py_eq a b = py_eq b a.
Proof.
  unfold py_eq.
  destruct (num_val a) eqn:Ea, (num_val b) eqn:Eb; try reflexivity.
  - apply Qeq_bool_symm.
  - destruct a, b; try reflexivity; try discriminate. apply String.eqb_sym.
Qed.

Lemma py_eq_trans (a b c : json) :
  py_eq a b = true -> py_eq b c = true -> py_eq a c = true.
Proof.
  unfold py_eq.
  destruct (num_val a) eqn:Ea, (num_val b) eqn:Eb, (num_val c) eqn:Ec;
    try discriminate.
  - apply Qeq_bool_transitive.
  - destruct a, b, c; try discriminate; try reflexivity.
    rewrite !String.eqb_eq. congruence.
Qed.

Lemma py_eq_refl (a : json) : hashable a = true -> py_eq a a = true.
Proof.
  destruct a; simpl; try discriminate; intros _; unfold py_eq; simpl.
  - reflexivity.
  - apply Qeq_bool_iff. reflexivity.
  - apply Qeq_bool_iff. reflexivity.
  - apply Qeq_bool_iff. reflexivity.
  - apply String.eqb_refl.
Qed.

(** Reading a [defaultdict] after an update, for a key comparison that is
    symmetric and transitive. *)
Section DefaultDictFacts.
Variables K V : Type.
Variable eqb : K -> K -> bool.
Variable default : V.
Hypothesis eqb_sym : forall a b, eqb a b = eqb b a.
Hypothesis eqb_trans :
  forall a b c, eqb a b = true -> eqb b c = true -> eqb a c = true.

Lemma dd_read_upd_same (f : V -> V) (k k' : K) (d : list (K * V)) :
  eqb k k' = true ->
  dd_read eqb default k (dd_upd eqb default f k' d) =
  f (dd_read eqb default k d).
Proof.
  intros Hk. induction d as [|[k0 v] d IH]; simpl.
  - now rewrite Hk.
  - destruct (eqb k' k0) eqn:E0; simpl.
    + now rewrite (eqb_trans _ _ _ Hk E0).
    + destruct (eqb k k0) eqn:E1; [|exact IH].
      rewrite eqb_sym in Hk. rewrite (eqb_trans _ _ _ Hk E1) in E0.
      discriminate.
Qed.

Lemma dd_read_upd_other (f : V -> V) (k k' : K) (d : list (K * V)) :
  eqb k k' = false ->
  dd_read eqb default k (dd_upd eqb default f k' d) =
  dd_read eqb default k d.
Proof.
  intros Hk. induction d as [|[k0 v] d IH]; simpl.
  - now rewrite Hk.
  - destruct (eqb k' k0) eqn:E0; simpl.
    + destruct (eqb k k0) eqn:E1; [|reflexivity].
      rewrite eqb_sym in E0. rewrite (eqb_trans _ _ _ E1 E0) in Hk.
      discriminate.
    + destruct (eqb k k0); [reflexivity | exact IH].
Qed.

Lemma dd_upd_In (f : V -> V) (k k0 : K) (v : V) (d : list (K * V)) :
  In (k0, v) (dd_upd eqb default f k d) ->
  In (k0, v) d \/
  (exists v0, v = f v0 /\ (In (k0, v0) d \/ (v0 = default /\ k0 = k))).
Proof.
  induction d as [|[k1 v1] d IH]; simpl.
  - intros [H|[]]. inversion H; subst. right. eauto.
  - destruct (eqb k k1); simpl.
    + intros [H|H]; [|auto]. inversion H; subst. right. eauto.
    + intros [H|H]; [auto|].
      destruct (IH H) as [H'|[v0 [E [H'|H']]]]; eauto 6.
Qed.
End DefaultDictFacts.

Lemma string_eqb_trans (a b c : string) :
  (a =? b)%string = true -> (b =? c)%string = true -> (a =? c)%string = true.
Proof. rewrite !String.eqb_eq. congruence. Qed.

Lemma category_upd (f : list json -> list json) (c k : string) (d : targets) :
  category c (dd_upd String.eqb [] f k d) =
  if (c =? k)%string then f (category c d) else category c d.
Proof.
  unfold category. destruct (c =? k)%string eqn:E.
  - apply dd_read_upd_same;
      [apply String.eqb_sym | apply string_eqb_trans | exact E].
  - apply dd_read_upd_other;
      [apply String.eqb_sym | apply string_eqb_trans | exact E].
Qed.

Lemma sessions_at_upd (f : pyset -> pyset) (h k : json) (d : sessions) :
  sessions_at h (dd_upd py_eq [] f k d) =
  if py_eq h k then f (sessions_at h d) else sessions_at h d.
Proof.
  unfold sessions_at. destruct (py_eq h k) eqn:E.
  - apply dd_read_upd_same; [apply py_eq_sym | apply py_eq_trans | exact E].
  - apply dd_read_upd_other; [apply py_eq_sym | apply py_eq_trans | exact E].
Qed.

(** ** The high-value loop *)

Ltac destruct_node node :=
  destruct node as [| | | | | |m]; try discriminate;
  let P := fresh "P" in
  destruct (dict_get m "properties" (JObj [])) eqn:P; try discriminate.

Lemma hv_node_ok (acc : targets) (node : json) :
  node_ok node = true -> hv_node acc node = Ok (hv_apply node acc).
Proof.
  unfold node_ok. intros H. destruct_node node.
  unfold hv_node, hv_apply, node_flag, node_admin, node_name, node_props,
    py_get; simpl.
  rewrite P; simpl. reflexivity.
Qed.

Lemma hv_node_ok_inv (acc acc' : targets) (node : json) :
  hv_node acc node = Ok acc' -> node_ok node = true.
Proof.
  unfold hv_node, py_get, node_ok.
  destruct node; simpl; try discriminate.
  destruct (dict_get fields "properties" (JObj [])); simpl;
    try discriminate; reflexivity.
Qed.

Lemma category_hv_apply (c : string) (node : json) (acc : targets) :
  category c (hv_apply node acc) =
  category c acc ++ (if in_category c node then [node_name node] else []).
Proof.
  unfold hv_apply, in_category, tg_append.
  repeat match goal with
  | |- context [if node_flag ?f node then _ else _] =>
      destruct (node_flag f node)
  | |- context [if node_admin node then _ else _] => destruct (node_admin node)
  end;
  rewrite ?category_upd;
  repeat match goal with
  | |- context [(c =? ?k)%string] =>
      let E := fresh "E" in
      destruct (c =? k)%string eqn:E;
      [apply String.eqb_eq in E; subst c; simpl | ]
  end;
  rewrite ?app_nil_r; reflexivity.
Qed.

Lemma for_each_hv (nodes : list json) :
  forallb node_ok nodes = true ->
  forall acc, exists acc',
    for_each hv_node nodes acc = Ok acc' /\
    forall c, category c acc' =
              category c acc ++ map node_name (filter (in_category c) nodes).
Proof.
  induction nodes as [|node nodes IH]; simpl; intros Hok acc.
  - exists acc. split; [reflexivity|]. intros c. now rewrite app_nil_r.
  - apply andb_true_iff in Hok as [Hn Hrest].
    rewrite (hv_node_ok acc node Hn); simpl.
    destruct (IH Hrest (hv_apply node acc)) as [acc' [Hrun Hcat]].
    exists acc'. split; [exact Hrun|]. intros c.
    rewrite Hcat, category_hv_apply, <- app_assoc.
    destruct (in_category c node); reflexivity.
Qed.

Lemma for_each_hv_inv (nodes : list json) (acc acc' : targets) :
  for_each hv_node nodes acc = Ok acc' -> forallb node_ok nodes = true.
Proof.
  revert acc; induction nodes as [|node nodes IH]; simpl; intros acc H;
    [reflexivity|].
  apply bind_ok in H as [acc1 [H1 H2]].
  rewrite (hv_node_ok_inv _ _ _ H1). simpl. eauto.
Qed.

Lemma extract_high_value_targets_nodes (doc : json) :
  extract_high_value_targets doc =
  (items <- doc_nodes doc ;; for_each hv_node items []).
Proof.
  unfold extract_high_value_targets, doc_nodes.
  destruct (py_get doc "nodes" (JArr [])); reflexivity.
Qed.

(** The result of the extractor on a document whose nodes are all readable,
    category by category. *)
Lemma extract_high_value_targets_ok (doc : json) (nodes : list json) :
  doc_nodes doc = Ok nodes -> forallb node_ok nodes = true ->
  exists hv, extract_high_value_targets doc = Ok hv /\
    forall c, category c hv = map node_name (filter (in_category c) nodes).
Proof.
  intros Hd Hok. rewrite extract_high_value_targets_nodes, Hd; simpl.
  destruct (for_each_hv nodes Hok []) as [hv [H1 H2]].
  exists hv. split; [exact H1|]. intros c. now rewrite H2.
Qed.

(** Conversely the extractor returns only on such documents. *)
Lemma extract_high_value_targets_inv (doc : json) (hv : targets) :
  extract_high_value_targets doc = Ok hv ->
  exists nodes, doc_nodes doc = Ok nodes /\ forallb node_ok nodes = true /\
    forall c, category c hv = map node_name (filter (in_category c) nodes).
Proof.
  rewrite extract_high_value_targets_nodes. intros H.
  apply bind_ok in H as [nodes [Hd Hrun]].
  exists nodes. split; [exact Hd|].
  pose proof (for_each_hv_inv _ _ _ Hrun) as Hok. split; [exact Hok|].
  destruct (extract_high_value_targets_ok doc nodes Hd Hok) as [hv' [H1 H2]].
  rewrite extract_high_value_targets_nodes, Hd in H1; simpl in H1.
  congruence.
Qed.

(** ** The delegation loop *)

Lemma deleg_node_ok (acc : list json) (node : json) :
  node_ok node = true ->
  deleg_node acc node =
  Ok (acc ++ if node_flag "unconstraineddelegation" node
             then [node_name node] else []).
Proof.
  unfold node_ok. intros H. destruct_node node.
  unfold deleg_node, node_flag, node_name, node_props, py_get; simpl.
  rewrite P; simpl.
  destruct (truthy _); [reflexivity | now rewrite app_nil_r].
Qed.

Lemma deleg_node_ok_inv (acc acc' : list json) (node : json) :
  deleg_node acc node = Ok acc' -> node_ok node = true.
Proof.
  unfold deleg_node, py_get, node_ok.
  destruct node; simpl; try discriminate.
  destruct (dict_get fields "properties" (JObj [])); simpl;
    try discriminate; reflexivity.
Qed.

Lemma for_each_deleg (nodes : list json) :
  forallb node_ok nodes = true ->
  forall acc,
    for_each deleg_node nodes acc =
    Ok (acc ++ map node_name
                   (filter (node_flag "unconstraineddelegation") nodes)).
Proof.
  induction nodes as [|node nodes IH]; simpl; intros Hok acc.
  - now rewrite app_nil_r.
  - apply andb_true_iff in Hok as [Hn Hrest].
    rewrite (deleg_node_ok acc node Hn); simpl. rewrite (IH Hrest).
    rewrite <- app_assoc.
    destruct (node_flag "unconstraineddelegation" node); reflexivity.
Qed.

Lemma for_each_deleg_inv (nodes : list json) (acc acc' : list json) :
  for_each deleg_node nodes acc = Ok acc' -> forallb node_ok nodes = true.
Proof.
  revert acc; induction nodes as [|node nodes IH]; simpl; intros acc H;
    [reflexivity|].
  apply bind_ok in H as [acc1 [H1 H2]].
  rewrite (deleg_node_ok_inv _ _ _ H1). simpl. eauto.
Qed.

Lemma extract_delegation_nodes (doc : json) :
  extract_unconstrained_delegation_principals doc =
  (items <- doc_nodes doc ;; for_each deleg_node items []).
Proof.
  unfold extract_unconstrained_delegation_principals, doc_nodes.
  destruct (py_get doc "nodes" (JArr [])); reflexivity.
Qed.

Lemma extract_delegation_ok (doc : json) (nodes : list json) :
  doc_nodes doc = Ok nodes -> forallb node_ok nodes = true ->
  extract_unconstrained_delegation_principals doc =
  Ok (map node_name (filter (node_flag "unconstraineddelegation") nodes)).
Proof.
  intros Hd Hok. rewrite extract_delegation_nodes, Hd; simpl.
  now rewrite (for_each_deleg nodes Hok).
Qed.

Lemma extract_delegation_inv (doc : json) (l : list json) :
  extract_unconstrained_delegation_principals doc = Ok l ->
  exists nodes, doc_nodes doc = Ok nodes /\ forallb node_ok nodes = true /\
    l = map node_name (filter (node_flag "unconstraineddelegation") nodes).
Proof.
  rewrite extract_delegation_nodes. intros H.
  apply bind_ok in H as [nodes [Hd Hrun]].
  exists nodes. split; [exact Hd|].
  pose proof (for_each_deleg_inv _ _ _ Hrun) as Hok. split; [exact Hok|].
  rewrite (for_each_deleg nodes Hok) in Hrun. simpl in Hrun. congruence.
Qed.

(** ** Sets *)

Lemma set_mem_app (x : json) (s t : pyset) :
  set_mem x (s ++ t) = set_mem x s || set_mem x t.
Proof. unfold set_mem. apply existsb_app. Qed.

Lemma set_mem_In (x : json) (s : pyset) :
  set_mem x s = true -> exists y, In y s /\ py_eq x y = true.
Proof. unfold set_mem. rewrite existsb_exists. auto. Qed.

Lemma set_add_In (u x : json) (s : pyset) :
  In u (set_add x s) -> In u s \/ u = x.
Proof.
  unfold set_add. destruct (set_mem x s); [auto|].
  rewrite in_app_iff. simpl. intuition.
Qed.

Lemma set_update_In (u : json) (t s : pyset) :
  In u (set_update s t) -> In u s \/ In u t.
Proof.
  unfold set_update. revert s.
  induction t as [|x t IH]; simpl; intros s H; [auto|].
  destruct (IH _ H) as [H'|H']; [|auto].
  destruct (set_add_In _ _ _ H'); auto.
Qed.

Lemma set_update_app (s t1 t2 : pyset) :
  set_update s (t1 ++ t2) = set_update (set_update s t1) t2.
Proof. unfold set_update. apply fold_left_app. Qed.

Lemma distinct_snoc (s : pyset) (x : json) :
  distinct s = true -> set_mem x s = false -> distinct (s ++ [x]) = true.
Proof.
  induction s as [|y s IH]; simpl; intros Hd Hx; [reflexivity|].
  apply andb_true_iff in Hd as [Hy Hd].
  apply orb_false_iff in Hx as [Hxy Hx].
  rewrite set_mem_app, (IH Hd Hx). simpl.
  rewrite py_eq_sym, Hxy, orb_false_r, Hy. reflexivity.
Qed.

Lemma distinct_set_add (x : json) (s : pyset) :
  distinct s = true -> distinct (set_add x s) = true.
Proof.
  intros Hd. unfold set_add. destruct (set_mem x s) eqn:E; [exact Hd|].
  now apply distinct_snoc.
Qed.

(** Adding an element a second time changes nothing. *)
Lemma set_add_idempotent (x : json) (s : pyset) :
  hashable x = true -> set_add x (set_add x s) = set_add x s.
Proof.
  intros Hh. unfold set_add at 2. destruct (set_mem x s) eqn:E.
  - unfold set_add. now rewrite E.
  - unfold set_add. rewrite set_mem_app. unfold set_mem at 2. simpl.
    now rewrite E, (py_eq_refl x Hh).
Qed.

(** Adding to a one-element set elements all equal to its element leaves
    it as it is. *)
Lemma set_update_singleton (u : json) (t : pyset) :
  (forall x, In x t -> py_eq x u = true) -> set_update [u] t = [u].
Proof.
  unfold set_update. induction t as [|x t IH]; simpl; intros H; [reflexivity|].
  unfold set_add at 2. simpl. rewrite (H x (or_introl eq_refl)). simpl.
  apply IH. auto.
Qed.

(** ** The session loop *)

Section SessionLoop.
Variable priv : pyset.

Lemma session_step_ok (host : json) (sd : sessions) (session : json) :
  session_ok session = true ->
  session_step priv host sd session =
  if set_mem (session_username session) priv
  then if hashable host
       then Ok (dd_upd py_eq [] (set_add (session_username session)) host sd)
       else Raise (unhashable host)
  else Ok sd.
Proof.
  unfold session_ok, session_username, session_step, py_get, py_in.
  intros H. destruct session as [| | | | | |m]; try discriminate.
  destruct (dict_get m "user" (JObj [])) eqn:U; try discriminate.
  simpl. rewrite U. simpl. rewrite H. reflexivity.
Qed.

Lemma session_step_inv (host : json) (sd sd' : sessions) (session : json) :
  session_step priv host sd session = Ok sd' -> session_ok session = true.
Proof.
  unfold session_ok, session_step, py_get, py_in.
  intros H. destruct session as [| | | | | |m]; try discriminate.
  simpl in H. destruct (dict_get m "user" (JObj [])); try discriminate.
  simpl in H. destruct (hashable _); [reflexivity | discriminate].
Qed.

Lemma for_each_session_inv (host : json) (items : list json) :
  forall sd sd',
  for_each (session_step priv host) items sd = Ok sd' ->
  forallb session_ok items = true /\
  (hashable host = true \/ step_users priv items = []) /\
  forall h, sessions_at h sd' =
            set_update (sessions_at h sd)
                       (if py_eq h host then step_users priv items else []).
Proof.
  unfold step_users.
  induction items as [|x items IH]; simpl; intros sd sd' H.
  - inversion H; subst. repeat split; auto.
    intros h. destruct (py_eq h host); reflexivity.
  - apply bind_ok in H as [sd1 [H1 H2]].
    pose proof (session_step_inv _ _ _ _ H1) as Hx.
    rewrite (session_step_ok host sd x Hx) in H1.
    destruct (IH _ _ H2) as [Hall [Hhost Hat]].
    rewrite Hx. split; [exact Hall|].
    destruct (set_mem (session_username x) priv) eqn:Hp.
    + destruct (hashable host) eqn:Hh; [|discriminate].
      inversion H1; subst sd1. split; [auto|].
      intros h. rewrite Hat, sessions_at_upd.
      destruct (py_eq h host); reflexivity.
    + inversion H1; subst sd1. split; [exact Hhost | exact Hat].
Qed.

Lemma for_each_session_ok (host : json) (items : list json) :
  forallb session_ok items = true ->
  (hashable host = true \/ step_users priv items = []) ->
  forall sd, exists sd', for_each (session_step priv host) items sd = Ok sd'.
Proof.
  unfold step_users.
  induction items as [|x items IH]; simpl; intros Hall Hhost sd; [eauto|].
  apply andb_true_iff in Hall as [Hx Hall].
  rewrite (session_step_ok host sd x Hx).
  destruct (set_mem (session_username x) priv) eqn:Hp.
  - destruct Hhost as [Hh|Hn]; [|discriminate].
    rewrite Hh. simpl. apply IH; auto.
  - simpl. apply IH; auto.
Qed.

Lemma sess_node_unfold (sd : sessions) (node : json) :
  node_ok node = true ->
  sess_node priv sd node =
  (items <- node_sessions node ;;
   for_each (session_step priv (node_name node)) items sd).
Proof.
  unfold node_ok. intros H. destruct_node node.
  unfold sess_node, node_name, node_props, node_sessions, py_get; simpl.
  rewrite P; simpl. reflexivity.
Qed.

Lemma sess_node_node_ok (sd sd' : sessions) (node : json) :
  sess_node priv sd node = Ok sd' -> node_ok node = true.
Proof.
  unfold sess_node, py_get, node_ok.
  destruct node; simpl; try discriminate.
  destruct (dict_get fields "properties" (JObj [])); simpl;
    try discriminate; reflexivity.
Qed.

Lemma sess_node_inv (sd sd' : sessions) (node : json) :
  sess_node priv sd node = Ok sd' ->
  sess_node_ok priv node = true /\
  exists items, node_sessions node = Ok items /\
    for_each (session_step priv (node_name node)) items sd = Ok sd'.
Proof.
  intros H. pose proof (sess_node_node_ok _ _ _ H) as Hn.
  rewrite (sess_node_unfold sd node Hn) in H.
  apply bind_ok in H as [items [Hi Hrun]].
  destruct (for_each_session_inv _ _ _ _ Hrun) as [Hall [Hhost _]].
  split; [|eauto].
  unfold sess_node_ok, priv_users. rewrite Hn, Hi, Hall. simpl.
  destruct Hhost as [Hh|He]; [now rewrite Hh|].
  unfold step_users in He. rewrite He. apply orb_true_r.
Qed.

Lemma sess_node_ok_run (sd : sessions) (node : json) :
  sess_node_ok priv node = true -> exists sd', sess_node priv sd node = Ok sd'.
Proof.
  unfold sess_node_ok, priv_users. intros H.
  apply andb_true_iff in H as [H Hhost].
  apply andb_true_iff in H as [Hn Hs].
  rewrite (sess_node_unfold sd node Hn).
  destruct (node_sessions node) as [items|e]; [|discriminate]. simpl.
  apply for_each_session_ok; [exact Hs|].
  apply orb_true_iff in Hhost as [Hh|He]; [auto|].
  right. unfold step_users.
  destruct (filter _ _); [reflexivity | discriminate].
Qed.

Lemma sess_node_at (sd sd' : sessions) (node : json) :
  sess_node priv sd node = Ok sd' ->
  forall h, sessions_at h sd' =
            set_update (sessions_at h sd)
                       (if py_eq h (node_name node)
                        then priv_users priv node else []).
Proof.
  intros H h. destruct (sess_node_inv _ _ _ H) as [_ [items [Hi Hrun]]].
  destruct (for_each_session_inv _ _ _ _ Hrun) as [_ [_ Hat]].
  rewrite Hat. unfold priv_users, step_users. now rewrite Hi.
Qed.

Lemma for_each_sess_node_inv (nodes : list json) :
  forall sd sd',
  for_each (sess_node priv) nodes sd = Ok sd' ->
  forallb (sess_node_ok priv) nodes = true /\
  forall h, sessions_at h sd' =
            set_update (sessions_at h sd) (host_users priv h nodes).
Proof.
  induction nodes as [|node nodes IH]; simpl; intros sd sd' H.
  - inversion H; subst. auto.
  - apply bind_ok in H as [sd1 [H1 H2]].
    destruct (sess_node_inv _ _ _ H1) as [Hn _].
    destruct (IH _ _ H2) as [Hall Hat].
    rewrite Hn, Hall. split; [reflexivity|].
    intros h. rewrite Hat, (sess_node_at _ _ _ H1), set_update_app.
    reflexivity.
Qed.

Lemma for_each_sess_node_ok (nodes : list json) :
  forallb (sess_node_ok priv) nodes = true ->
  forall sd, exists sd', for_each (sess_node priv) nodes sd = Ok sd'.
Proof.
  induction nodes as [|node nodes IH]; simpl; intros Hall sd; [eauto|].
  apply andb_true_iff in Hall as [Hn Hall].
  destruct (sess_node_ok_run sd node Hn) as [sd1 H1].
  rewrite H1. simpl. apply IH; exact Hall.
Qed.
End SessionLoop.

Lemma extract_sessions_nodes (doc : json) (priv : pyset) :
  extract_sessions doc priv =
  (items <- doc_nodes doc ;; for_each (sess_node priv) items []).
Proof.
  unfold extract_sessions, doc_nodes.
  destruct (py_get doc "nodes" (JArr [])); reflexivity.
Qed.

(** The session map of a document, host by host. *)
Lemma extract_sessions_inv (doc : json) (priv : pyset) (sd : sessions) :
  extract_sessions doc priv = Ok sd ->
  exists nodes, doc_nodes doc = Ok nodes /\
    forallb (sess_node_ok priv) nodes = true /\
    forall h, sessions_at h sd = set_update [] (host_users priv h nodes).
Proof.
  rewrite extract_sessions_nodes. intros H.
  apply bind_ok in H as [nodes [Hd Hrun]].
  exists nodes. split; [exact Hd|].
  exact (for_each_sess_node_inv _ _ _ _ Hrun).
Qed.

Lemma extract_sessions_ok (doc : json) (priv : pyset) (nodes : list json) :
  doc_nodes doc = Ok nodes -> forallb (sess_node_ok priv) nodes = true ->
  exists sd, extract_sessions doc priv = Ok sd /\
    forall h, sessions_at h sd = set_update [] (host_users priv h nodes).
Proof.
  intros Hd Hok. rewrite extract_sessions_nodes, Hd. simpl.
  destruct (for_each_sess_node_ok priv nodes Hok []) as [sd Hrun].
  exists sd. split; [exact Hrun|].
  exact (proj2 (for_each_sess_node_inv _ _ _ _ Hrun)).
Qed.

(** A property of the user sets that holds of the empty set and that adding a
    privileged username preserves holds of every set of the session map. *)
Section SessionSets.
Variable priv : pyset.
Variable Q : pyset -> Prop.
Hypothesis Q_empty : Q [].
Hypothesis Q_add :
  forall x s, set_mem x priv = true -> Q s -> Q (set_add x s).

Lemma session_step_sets (host : json) (sd sd' : sessions) (session : json) :
  all_sets Q sd -> session_step priv host sd session = Ok sd' -> all_sets Q sd'.
Proof.
  intros Hsd H. pose proof (session_step_inv _ _ _ _ _ H) as Hok.
  rewrite (session_step_ok priv host sd session Hok) in H.
  destruct (set_mem (session_username session) priv) eqn:Hp;
    [|inversion H; subst; exact Hsd].
  destruct (hashable host); [|discriminate]. inversion H; subst sd'.
  intros h s Hin. apply dd_upd_In in Hin.
  destruct Hin as [Hin|[s0 [-> [Hin|[-> _]]]]].
  - exact (Hsd _ _ Hin).
  - apply Q_add; [exact Hp | exact (Hsd _ _ Hin)].
  - apply Q_add; [exact Hp | exact Q_empty].
Qed.

Lemma for_each_session_sets (host : json) (items : list json) :
  forall sd sd', all_sets Q sd ->
    for_each (session_step priv host) items sd = Ok sd' -> all_sets Q sd'.
Proof.
  induction items as [|x items IH]; simpl; intros sd sd' Hsd H.
  - inversion H; subst; exact Hsd.
  - apply bind_ok in H as [sd1 [H1 H2]].
    exact (IH _ _ (session_step_sets _ _ _ _ Hsd H1) H2).
Qed.

Lemma sess_node_sets (sd sd' : sessions) (node : json) :
  all_sets Q sd -> sess_node priv sd node = Ok sd' -> all_sets Q sd'.
Proof.
  intros Hsd H. destruct (sess_node_inv _ _ _ _ H) as [_ [items [_ Hrun]]].
  exact (for_each_session_sets _ _ _ _ Hsd Hrun).
Qed.

Lemma for_each_sess_node_sets (nodes : list json) :
  forall sd sd', all_sets Q sd ->
    for_each (sess_node priv) nodes sd = Ok sd' -> all_sets Q sd'.
Proof.
  induction nodes as [|x nodes IH]; simpl; intros sd sd' Hsd H.
  - inversion H; subst; exact Hsd.
  - apply bind_ok in H as [sd1 [H1 H2]].
    exact (IH _ _ (sess_node_sets _ _ _ Hsd H1) H2).
Qed.

Lemma extract_sessions_sets (doc : json) (sd : sessions) :
  extract_sessions doc priv = Ok sd -> all_sets Q sd.
Proof.
  rewrite extract_sessions_nodes. intros H.
  apply bind_ok in H as [nodes [_ Hrun]].
  refine (for_each_sess_node_sets _ _ _ _ Hrun). intros h s [].
Qed.
End SessionSets.

(** Every username of a session map was found in the privileged set. *)
Lemma extract_sessions_privileged (doc : json) (priv : pyset) (sd : sessions) :
  extract_sessions doc priv = Ok sd ->
  forall host users u, In (host, users) sd -> In u users ->
    set_mem u priv = true.
Proof.
  intros H host users u Hin Hu.
  refine (extract_sessions_sets priv
            (fun s => forall u, In u s -> set_mem u priv = true)
            _ _ doc sd H host users Hin u Hu).
  - intros ? [].
  - intros x s Hx Hs v Hv. destruct (set_add_In _ _ _ Hv) as [Hv'| ->]; auto.
Qed.

(** Every user set of a session map holds pairwise different usernames. *)
Lemma extract_sessions_distinct (doc : json) (priv : pyset) (sd : sessions) :
  extract_sessions doc priv = Ok sd ->
  forall host users, In (host, users) sd -> distinct users = true.
Proof.
  intros H host users Hin.
  refine (extract_sessions_sets priv (fun s => distinct s = true)
            _ _ doc sd H host users Hin).
  - reflexivity.
  - intros x s _ Hs. now apply distinct_set_add.
Qed.

(** ** Merging into the running collections *)

Lemma py_set_In (l : list json) (s : pyset) :
  py_set l = Ok s -> forall y, In y s -> In y l.
Proof.
  unfold py_set.
  assert (G : forall l s0 s,
    for_each (fun s x => if hashable x then Ok (set_add x s)
                         else Raise (unhashable x)) l s0 = Ok s ->
    forall y, In y s -> In y s0 \/ In y l).
  { clear. induction l as [|x l IH]; simpl; intros s0 s H y Hy.
    - inversion H; subst; auto.
    - apply bind_ok in H as [s1 [H1 H2]].
      destruct (hashable x); [|discriminate]. inversion H1; subst s1.
      destruct (IH _ _ H2 y Hy) as [H'|H']; [|auto].
      destruct (set_add_In _ _ _ H'); auto. }
  intros H y Hy. destruct (G _ _ _ H y Hy) as [[]|H']; exact H'.
Qed.

Lemma dd_upd_keys (f : list json -> list json) (k : string) (d : targets) :
  NoDup (map fst d) -> NoDup (map fst (dd_upd String.eqb [] f k d)) /\
  forall k', In k' (map fst (dd_upd String.eqb [] f k d)) ->
             k' = k \/ In k' (map fst d).
Proof.
  induction d as [|[k0 v] d IH]; simpl; intros Hnd.
  - split; [repeat constructor; auto | intuition].
  - inversion Hnd as [|? ? Hk0 Hd]; subst.
    destruct (k =? k0)%string eqn:E; simpl.
    + split; [exact Hnd | intuition].
    + destruct (IH Hd) as [IH1 IH2]. split.
      * constructor; [|exact IH1]. intros Hin.
        destruct (IH2 _ Hin) as [->|Hin']; [|contradiction].
        rewrite String.eqb_refl in E. discriminate.
      * intros k' [->|Hin]; [auto|]. destruct (IH2 _ Hin); auto.
Qed.

Lemma hv_apply_keys (node : json) (acc : targets) :
  NoDup (map fst acc) -> NoDup (map fst (hv_apply node acc)).
Proof.
  unfold hv_apply, tg_append. intros H.
  repeat match goal with
  | |- context [if ?b then dd_upd _ _ _ _ _ else _] => destruct b
  end;
  repeat (apply dd_upd_keys); exact H.
Qed.

Lemma extract_high_value_targets_keys (doc : json) (hv : targets) :
  extract_high_value_targets doc = Ok hv -> NoDup (map fst hv).
Proof.
  rewrite extract_high_value_targets_nodes. intros H.
  apply bind_ok in H as [nodes [_ Hrun]].
  assert (G : forall nodes acc hv, NoDup (map fst acc) ->
            for_each hv_node nodes acc = Ok hv -> NoDup (map fst hv)).
  { clear. induction nodes as [|x nodes IH]; simpl; intros acc hv Hnd H.
    - inversion H; subst; exact Hnd.
    - apply bind_ok in H as [acc1 [H1 H2]].
      rewrite (hv_node_ok acc x (hv_node_ok_inv _ _ _ H1)) in H1.
      inversion H1; subst acc1.
      exact (IH _ _ (hv_apply_keys x acc Hnd) H2). }
  exact (G nodes [] hv (NoDup_nil _) Hrun).
Qed.

Lemma category_absent (c : string) (d : targets) :
  ~ In c (map fst d) -> category c d = [].
Proof.
  unfold category. induction d as [|[k v] d IH]; simpl; intros H;
    [reflexivity|].
  destruct (c =? k)%string eqn:E.
  - apply String.eqb_eq in E. subst. intuition.
  - apply IH. intuition.
Qed.

(** Merging extends every category by the list extracted for it. *)
Lemma category_merge_targets (c : string) (extracted d : targets) :
  NoDup (map fst extracted) ->
  category c (merge_targets d extracted) = category c d ++ category c extracted.
Proof.
  unfold merge_targets. revert d.
  induction extracted as [|[k v] e IH]; simpl; intros d Hnd.
  - change (category c []) with (@nil json). now rewrite app_nil_r.
  - inversion Hnd as [|? ? Hk He]; subst.
    rewrite (IH _ He), category_upd.
    change (category c ((k, v) :: e))
      with (if (c =? k)%string then v else category c e).
    destruct (c =? k)%string eqn:E.
    + apply String.eqb_eq in E. subst k.
      rewrite (category_absent _ _ Hk). now rewrite !app_nil_r.
    + reflexivity.
Qed.

Lemma merge_sessions_In (extracted d : sessions) (h : json) (s : pyset) :
  In (h, s) (merge_sessions d extracted) ->
  forall u, In u s ->
    (exists h' s', In (h', s') d /\ In u s') \/
    (exists h' s', In (h', s') extracted /\ In u s').
Proof.
  unfold merge_sessions. revert d.
  induction extracted as [|[k v] e IH]; simpl; intros d Hin u Hu.
  - left. eauto.
  - destruct (IH _ Hin u Hu) as [[h' [s' [Hin' Hu']]]|[h' [s' [Hin' Hu']]]].
    + apply dd_upd_In in Hin'.
      destruct Hin' as [Hin'|[s0 [-> [Hin'|[-> _]]]]].
      * left. eauto.
      * destruct (set_update_In _ _ _ Hu'); [left|right]; eauto.
      * destruct (set_update_In _ _ _ Hu') as [[]|]. right; eauto.
    + right. eauto.
Qed.

(** ** One file *)

Lemma process_file_extract_fail (doc : json) (e : exn) (c : collections) :
  extract_high_value_targets doc = Raise e ->
  process_file (Ok doc) c = (c, Raise e).
Proof. unfold process_file. now intros ->. Qed.

(** What one file does to the running collections, step by step. *)
Lemma process_file_cases (doc : json) (c : collections) :
  let c' := fst (process_file (Ok doc) c) in
  let r := snd (process_file (Ok doc) c) in
  (exists e, extract_high_value_targets doc = Raise e /\ c' = c /\ r = Raise e)
  \/
  (exists hv, extract_high_value_targets doc = Ok hv /\
     (forall k, category k (high_value_targets c') =
                category k (high_value_targets c) ++ category k hv) /\
     ((exists e, r = Raise e /\
         all_sessions c' = all_sessions c /\
         unconstrained_delegation_targets c' =
         unconstrained_delegation_targets c)
      \/
      (exists priv sd,
         py_set (priv_list c') = Ok priv /\
         extract_sessions doc priv = Ok sd /\
         all_sessions c' = merge_sessions (all_sessions c) sd /\
         ((exists e, r = Raise e /\
             unconstrained_delegation_targets c' =
             unconstrained_delegation_targets c)
          \/
          (exists dl,
             extract_unconstrained_delegation_principals doc = Ok dl /\
             r = Ok tt /\
             unconstrained_delegation_targets c' =
             unconstrained_delegation_targets c ++ dl))))).
Proof.
  unfold process_file, priv_list.
  destruct (extract_high_value_targets doc) as [hv|e] eqn:Ehv;
    [right | left; simpl; eauto].
  exists hv. split; [reflexivity|].
  set (hvt := dd_upd String.eqb [] (fun l => l) "High Value"
                (dd_upd String.eqb [] (fun l => l)
                   "Domain Admins / Enterprise Admins"
                   (merge_targets (high_value_targets c) hv))).
  assert (Hcat : forall k, category k hvt =
                           category k (high_value_targets c) ++ category k hv).
  { intros k. unfold hvt. rewrite !category_upd.
    rewrite (category_merge_targets k hv (high_value_targets c)
               (extract_high_value_targets_keys doc hv Ehv)).
    destruct (k =? "High Value")%string,
             (k =? "Domain Admins / Enterprise Admins")%string; reflexivity. }
  change (dd_read String.eqb [] "Domain Admins / Enterprise Admins" hvt)
    with (category DA hvt).
  change (dd_read String.eqb [] "High Value" hvt) with (category HV hvt).
  destruct (py_set (category DA hvt ++ category HV hvt)) as [priv|e] eqn:Ep;
    simpl; [|split; [exact Hcat | left; eauto]].
  destruct (extract_sessions doc priv) as [sd|e] eqn:Es;
    simpl; [|split; [exact Hcat | left; eauto]].
  destruct (extract_unconstrained_delegation_principals doc) as [dl|e] eqn:Ed;
    simpl; (split; [exact Hcat|]); right; exists priv, sd;
    (split; [exact Ep|]); (split; [exact Es|]); (split; [reflexivity|]).
  - right. eauto.
  - left. eauto.
Qed.

(** ** The loop over the directory listing *)

Lemma process_files_app (w : world) (folder : string) (n1 n2 : list string)
  (c : collections) :
  process_files w folder (n1 ++ n2) c =
  let (c1, o1) := process_files w folder n1 c in
  let (c2, o2) := process_files w folder n2 c1 in
  (c2, o1 ++ o2).
Proof.
  revert c. induction n1 as [|x n1 IH]; simpl; intros c.
  - destruct (process_files w folder n2 c); reflexivity.
  - destruct (endswith x ".json"); [|apply IH].
    destruct (process_file (load_json w (path_join folder x)) c) as [c' r].
    rewrite IH.
    destruct (process_files w folder n1 c') as [c1 o1].
    destruct (process_files w folder n2 c1) as [c2 o2].
    destruct r; reflexivity.
Qed.

(** A property of the collections that every file preserves, whatever its
    outcome, holds after the loop. *)
Lemma process_files_invariant (P : collections -> Prop) :
  (forall loaded c, P c -> P (fst (process_file loaded c))) ->
  forall w folder names c, P c -> P (fst (process_files w folder names c)).
Proof.
  intros Hstep w folder names.
  induction names as [|x names IH]; simpl; intros c Hc; [exact Hc|].
  destruct (endswith x ".json"); [|exact (IH c Hc)].
  pose proof (Hstep (load_json w (path_join folder x)) c Hc) as Hc'.
  destruct (process_file (load_json w (path_join folder x)) c) as [c' r].
  specialize (IH c' Hc').
  destruct (process_files w folder names c') as [c'' out]. exact IH.
Qed.

(** The report is not produced inside the loop. *)
Lemma process_files_prints (w : world) (folder : string) (names : list string) :
  forall c, forallb is_print (snd (process_files w folder names c)) = true.
Proof.
  induction names as [|x names IH]; simpl; intros c; [reflexivity|].
  destruct (endswith x ".json"); [|apply IH].
  destruct (process_file (load_json w (path_join folder x)) c) as [c' r].
  specialize (IH c').
  destruct (process_files w folder names c') as [c'' out].
  simpl in *. destruct r; simpl; exact IH.
Qed.

(** * Part V: the properties *)

(** ** C1: the worked example *)

(** C1, as stated, fails: on the example document the pipeline does not yield
    HighValueAccounts = {"High Value": ["A"], "Domain Admins / Enterprise
    Admins": ["B"]}.  Node B carries [unconstraineddelegation: true], so the
    high-value extractor also files it under "Unconstrained Delegation". *)
Lemma example_high_value_accounts_not_as_claimed :
  high_value_targets example_collections <>
    [("High Value", [JStr "A"]);
     ("Domain Admins / Enterprise Admins", [JStr "B"])] /\
  category "Unconstrained Delegation" (high_value_targets example_collections)
    = [JStr "B"] /\
  category "Unconstrained Delegation"
    [("High Value", [JStr "A"]);
     ("Domain Admins / Enterprise Admins", [JStr "B"])] = [].
Proof.
  repeat split; try (vm_compute; reflexivity).
  vm_compute. intros H. discriminate H.
Qed.

(** C1, amended: on the example document every step of the per-file pipeline
    succeeds and yields HighValueAccounts = {"High Value": ["A"], "Domain
    Admins / Enterprise Admins": ["B"], "Unconstrained Delegation": ["B"]},
    SessionMap = {"B": {"A"}} and DelegationTargets = ["B"]. *)
Theorem example_pipeline :
  process_file (Ok example_doc) empty_collections =
  ({| high_value_targets :=
        [("High Value", [JStr "A"]);
         ("Domain Admins / Enterprise Admins", [JStr "B"]);
         ("Unconstrained Delegation", [JStr "B"])];
      all_sessions := [(JStr "B", [JStr "A"])];
      unconstrained_delegation_targets := [JStr "B"] |}, Ok tt).
Proof. vm_compute. reflexivity. Qed.

(** ** C3: the admincount test *)

Lemma py_eq_one (v : json) : py_eq v (JInt 1) = true <-> equals_one v.
Proof.
  unfold equals_one, py_eq. destruct v as [|b|n|q|s|l|m]; simpl.
  - split; [discriminate|]. intros [H|[H|[q [H _]]]]; discriminate.
  - destruct b; simpl.
    + split; auto.
    + split; [discriminate|]. intros [H|[H|[q [H _]]]]; discriminate.
  - rewrite Qeq_bool_iff. unfold Qeq, inject_Z; simpl. split.
    + intros H. left. f_equal. lia.
    + intros [H|[H|[q [H _]]]]; try discriminate. inversion H. reflexivity.
  - rewrite Qeq_bool_iff. split.
    + intros H. right. right. exists q. split; [reflexivity | exact H].
    + intros [H|[H|[q' [H Hq]]]]; try discriminate. inversion H. exact Hq.
  - split; [discriminate|]. intros [H|[H|[q [H _]]]]; discriminate.
  - split; [discriminate|]. intros [H|[H|[q [H _]]]]; discriminate.
  - split; [discriminate|]. intros [H|[H|[q [H _]]]]; discriminate.
Qed.

(** C3: the extractor returns on the documents whose nodes are all readable,
    and only on them; the names under "Domain Admins / Enterprise Admins" are
    then, in node order, those of the nodes whose properties contain an
    [admincount] key whose value equals 1; a node with [admincount] equal to
    0, or without the key, is not one of them.  Equality is Python's [==]:
    the values equal to 1 are the integer 1, the boolean [true] and a float
    equal to 1. *)
Theorem admincount_equal_to_one (doc : json) :
  (forall nodes,
     doc_nodes doc = Ok nodes -> forallb node_ok nodes = true ->
     exists hv, extract_high_value_targets doc = Ok hv /\
       category "Domain Admins / Enterprise Admins" hv =
         map node_name (filter node_admin nodes)) /\
  (forall hv, extract_high_value_targets doc = Ok hv ->
     exists nodes, doc_nodes doc = Ok nodes /\ forallb node_ok nodes = true) /\
  (forall node, node_admin node = true <->
     exists v, assoc "admincount" (node_props node) = Some v /\
               py_eq v (JInt 1) = true) /\
  (forall node,
     assoc "admincount" (node_props node) = Some (JInt 0) \/
     assoc "admincount" (node_props node) = None ->
     node_admin node = false) /\
  (forall v, py_eq v (JInt 1) = true <-> equals_one v).
Proof.
  split; [|split; [|split; [|split]]].
  - intros nodes Hd Hok.
    destruct (extract_high_value_targets_ok doc nodes Hd Hok) as [hv [H1 H2]].
    exists hv. split; [exact H1 | exact (H2 _)].
  - intros hv H.
    destruct (extract_high_value_targets_inv doc hv H) as [nodes [Hd [Hok _]]].
    eauto.
  - intros node. unfold node_admin.
    destruct (assoc "admincount" (node_props node)) as [v|].
    + split; [eauto|]. intros [v' [E Hv]]. congruence.
    + split; [discriminate|]. intros [v' [E _]]. discriminate.
  - intros node [H|H]; unfold node_admin; rewrite H; reflexivity.
  - exact py_eq_one.
Qed.

Lemma admincount_equal_to_one_witness :
  exists hv, extract_high_value_targets admin_doc = Ok hv /\
    category "Domain Admins / Enterprise Admins" hv = [JStr "X"; JStr "Y"].
Proof.
  exact (proj1 (admincount_equal_to_one admin_doc)
           (match doc_nodes admin_doc with Ok l => l | Raise _ => [] end)
           eq_refl eq_refl).
Defined.

(** ** C4: the "High Value" list *)

(** C4: the extractor returns on the documents whose nodes are all
    readable, and only on them; "High Value" then holds the display name of
    each node whose [highvalue] flag is set (for a boolean flag: is [true]),
    once per such node and in node order; over a directory run the running
    "High Value" list is the concatenation, in listing order, of the lists
    extracted from the files, with nothing removed. *)
Theorem high_value_once_per_occurrence :
  (forall doc nodes,
     doc_nodes doc = Ok nodes -> forallb node_ok nodes = true ->
     exists hv, extract_high_value_targets doc = Ok hv /\
       category "High Value" hv =
         map node_name (filter (node_flag "highvalue") nodes)) /\
  (forall doc hv, extract_high_value_targets doc = Ok hv ->
     exists nodes, doc_nodes doc = Ok nodes /\ forallb node_ok nodes = true) /\
  (forall node b,
     dict_get (node_props node) "highvalue" (JBool false) = JBool b ->
     node_flag "highvalue" node = b) /\
  (forall w folder names c,
     category "High Value"
       (high_value_targets (fst (process_files w folder names c))) =
     category "High Value" (high_value_targets c) ++
     flat_map (file_high_value w folder) names).
Proof.
  split; [|split; [|split]].
  - intros doc nodes Hd Hok.
    destruct (extract_high_value_targets_ok doc nodes Hd Hok) as [hv [H1 H2]].
    exists hv. split; [exact H1 | exact (H2 _)].
  - intros doc hv H.
    destruct (extract_high_value_targets_inv doc hv H) as [nodes [Hd [Hok _]]].
    eauto.
  - intros node b H. unfold node_flag. rewrite H. reflexivity.
  - intros w folder names.
    induction names as [|x names IH]; simpl; intros c.
    + now rewrite app_nil_r.
    + unfold file_high_value at 1.
      destruct (endswith x ".json"); [|exact (IH c)].
      destruct (load_json w (path_join folder x)) as [doc|e].
      * pose proof (process_file_cases doc c) as Hc. cbv zeta in Hc.
        destruct (process_file (Ok doc) c) as [c' r].
        simpl fst in Hc; simpl snd in Hc.
        specialize (IH c').
        destruct (process_files w folder names c') as [c'' out].
        simpl fst in *. rewrite IH.
        destruct Hc as [[e [He [Hc' _]]]|[hv [He [Hcat _]]]]; rewrite He.
        -- now subst c'.
        -- rewrite Hcat. now rewrite app_assoc.
      * simpl. specialize (IH c).
        destruct (process_files w folder names c) as [c'' out]. exact IH.
Qed.

Lemma high_value_once_per_occurrence_witness :
  exists hv, extract_high_value_targets hv_doc_1 = Ok hv /\
    category "High Value" hv = [JStr "A"; JStr "A"].
Proof.
  exact (proj1 high_value_once_per_occurrence hv_doc_1
           (match doc_nodes hv_doc_1 with Ok l => l | Raise _ => [] end)
           eq_refl eq_refl).
Defined.

(** ** C2: sessions are filtered by the set supplied at the call *)

Lemma existsb_app_mono (u : json) (a a' b b' : list json) :
  existsb (py_eq u) (a ++ b) = true ->
  existsb (py_eq u) ((a ++ a') ++ (b ++ b')) = true.
Proof.
  rewrite !existsb_app. intros H.
  apply orb_true_iff in H as [H|H]; rewrite H; simpl;
    rewrite ?orb_true_r; reflexivity.
Qed.

Lemma process_file_sessions_privileged (loaded : result json)
  (c : collections) :
  sessions_privileged c -> sessions_privileged (fst (process_file loaded c)).
Proof.
  intros Hc. destruct loaded as [doc|e]; [|exact Hc].
  pose proof (process_file_cases doc c) as H. cbv zeta in H.
  destruct (process_file (Ok doc) c) as [c' r].
  simpl fst in *; simpl snd in H.
  destruct H as [[e [_ [-> _]]]|[hv [_ [Hcat Hrest]]]]; [exact Hc|].
  assert (Hold : forall h s u, In (h, s) (all_sessions c) -> In u s ->
                   existsb (py_eq u) (priv_list c') = true).
  { intros h s u Hin Hu. unfold priv_list. rewrite !Hcat.
    apply existsb_app_mono. exact (Hc h s u Hin Hu). }
  destruct Hrest as [[e [_ [Hs _]]]|[priv [sd [Hp [Hsd [Hs _]]]]]];
    intros host users u Hin Hu; rewrite Hs in Hin.
  - exact (Hold _ _ _ Hin Hu).
  - destruct (merge_sessions_In _ _ _ _ Hin u Hu)
      as [[h' [s' [Hin' Hu']]]|[h' [s' [Hin' Hu']]]].
    + exact (Hold _ _ _ Hin' Hu').
    + pose proof (extract_sessions_privileged doc priv sd Hsd h' s' u Hin' Hu')
        as Hm.
      apply set_mem_In in Hm as [y [Hy Hyu]].
      apply existsb_exists. exists y. split; [|exact Hyu].
      exact (py_set_In _ _ Hp y Hy).
Qed.

(** C2: every username [extract_sessions] places in a host's set is a member
    of the privileged set it was called with; and at any point of a directory
    run the running session map holds only usernames that the running
    high-value lists already make privileged, the rest of the run starting
    from these collections, so a username that becomes privileged only
    through a later file is in no set produced from the files before it.  The two runs at the end show it: the session of X on H
    is dropped when the file that makes X high-value comes second, and kept
    when it comes first. *)
Theorem sessions_only_privileged_at_call_time :
  (forall doc priv sd,
     extract_sessions doc priv = Ok sd ->
     forall host users u, In (host, users) sd -> In u users ->
       set_mem u priv = true) /\
  (forall w folder earlier later,
     let c := fst (process_files w folder earlier empty_collections) in
     sessions_privileged c /\
     fst (process_files w folder (earlier ++ later) empty_collections) =
     fst (process_files w folder later c)) /\
  all_sessions
    (fst (process_file (Ok later_doc)
            (fst (process_file (Ok earlier_doc) empty_collections)))) = [] /\
  all_sessions
    (fst (process_file (Ok earlier_doc)
            (fst (process_file (Ok later_doc) empty_collections)))) =
    [(JStr "H", [JStr "X"])].
Proof.
  split; [exact extract_sessions_privileged|]. split; [|split].
  - intros w folder earlier later c. split.
    + apply (process_files_invariant sessions_privileged).
      * exact process_file_sessions_privileged.
      * intros host users u [].
    + rewrite process_files_app. unfold c.
      destruct (process_files w folder earlier empty_collections) as [c1 o1].
      simpl fst.
      destruct (process_files w folder later c1) as [c2 o2]. reflexivity.
  - vm_compute. reflexivity.
  - vm_compute. reflexivity.
Qed.

Lemma sessions_only_privileged_at_call_time_witness :
  set_mem (JStr "A") [JStr "B"; JStr "A"] = true.
Proof.
  exact (proj1 sessions_only_privileged_at_call_time
           example_doc [JStr "B"; JStr "A"] [(JStr "B", [JStr "A"])] eq_refl
           (JStr "B") [JStr "A"] (JStr "A")
           (or_introl eq_refl) (or_introl eq_refl)).
Defined.

(** ** C5: sessions of unprivileged users *)

(** C5, as stated, fails: a session without user name is read as the empty
    string and is kept when the empty string is in the supplied set, which
    the pipeline itself supplies once a high-value node has an empty name. *)
Lemma empty_username_reported :
  extract_sessions anonymous_session_doc [JStr ""] =
    Ok [(JStr "H", [JStr ""])] /\
  all_sessions (fst (process_file (Ok anonymous_session_doc) empty_collections))
    = [(JStr "H", [JStr ""])].
Proof. split; vm_compute; reflexivity. Qed.

(** C5, amended: when [extract_sessions] returns, the set of a host is built
    from the usernames (an absent one read as the empty string) of the
    sessions of the nodes displayed as that host that are members of the
    supplied set, the others being ignored; so no set contains the empty
    string unless the empty string is in the supplied set. *)
Theorem unprivileged_sessions_ignored (doc : json) (priv : pyset)
  (sd : sessions) :
  extract_sessions doc priv = Ok sd ->
  (exists nodes, doc_nodes doc = Ok nodes /\
     forall h, sessions_at h sd = set_update [] (host_users priv h nodes)) /\
  (set_mem (JStr "") priv = false ->
   forall host users, In (host, users) sd -> ~ In (JStr "") users).
Proof.
  intros H. split.
  - destruct (extract_sessions_inv doc priv sd H) as [nodes [Hd [_ Hat]]].
    exists nodes. split; [exact Hd | exact Hat].
  - intros He host users Hin Hu.
    rewrite (extract_sessions_privileged doc priv sd H host users _ Hin Hu)
      in He. discriminate.
Qed.

Lemma unprivileged_sessions_ignored_witness :
  ~ In (JStr "") [JStr "A"].
Proof.
  exact (proj2 (unprivileged_sessions_ignored
                  example_doc [JStr "B"; JStr "A"] [(JStr "B", [JStr "A"])]
                  eq_refl)
               eq_refl (JStr "B") [JStr "A"] (or_introl eq_refl)).
Defined.

(** ** C6: the user sets hold distinct usernames *)

(** C6: on a document whose nodes and sessions are all readable,
    [extract_sessions] returns a session map in which every host's set holds
    pairwise different usernames, and in which a host all of whose privileged
    sessions name the same user, however many times, has a set of size 1;
    adding a username a second time leaves a set as it is. *)
Theorem session_sets_hold_distinct_users (doc : json) (priv : pyset)
  (nodes : list json) :
  doc_nodes doc = Ok nodes -> forallb (sess_node_ok priv) nodes = true ->
  exists sd, extract_sessions doc priv = Ok sd /\
    (forall host users, In (host, users) sd -> distinct users = true) /\
    (forall h u,
       host_users priv h nodes <> [] ->
       (forall x, In x (host_users priv h nodes) -> py_eq x u = true) ->
       List.length (sessions_at h sd) = 1%nat) /\
    (forall x s, hashable x = true -> set_add x (set_add x s) = set_add x s).
Proof.
  intros Hd Hok.
  destruct (extract_sessions_ok doc priv nodes Hd Hok) as [sd [H Hat]].
  exists sd. split; [exact H|].
  split; [exact (extract_sessions_distinct doc priv sd H)|].
  split; [|exact set_add_idempotent].
  intros h u Hne Hall.
  rewrite Hat. destruct (host_users priv h nodes) as [|x t]; [congruence|].
  change (set_update [] (x :: t)) with (set_update [x] t).
  rewrite set_update_singleton; [reflexivity|].
  intros y Hy. apply py_eq_trans with (b := u).
  - apply Hall. now right.
  - rewrite py_eq_sym. apply Hall. now left.
Qed.

Lemma session_sets_hold_distinct_users_witness :
  exists sd, extract_sessions twice_doc [JStr "ADMIN"] = Ok sd /\
             List.length (sessions_at (JStr "HOST") sd) = 1%nat.
Proof.
  destruct (session_sets_hold_distinct_users twice_doc [JStr "ADMIN"]
              (match doc_nodes twice_doc with Ok l => l | Raise _ => [] end)
              eq_refl eq_refl) as [sd [H [_ [H1 _]]]].
  exists sd. split; [exact H|].
  apply (H1 (JStr "HOST") (JStr "ADMIN")).
  - vm_compute. discriminate.
  - vm_compute. intros x [<-|[<-|[]]]; reflexivity.
Defined.

(** ** C7: the delegation list *)

(** C7: [extract_unconstrained_delegation_principals] returns on the
    documents whose nodes are all readable, and only on them; its result is
    the display names of the nodes whose [unconstraineddelegation] flag is
    set (for a boolean flag: is [true]), in node order and with repetitions.
    It takes the document only, and a file the driver gets through appends
    exactly that list to the running one, whatever the high-value
    collections hold. *)
Theorem delegation_targets_in_document_order (doc : json) :
  (forall nodes,
     doc_nodes doc = Ok nodes -> forallb node_ok nodes = true ->
     extract_unconstrained_delegation_principals doc =
       Ok (map node_name
               (filter (node_flag "unconstraineddelegation") nodes)) /\
     forall c c',
       process_file (Ok doc) c = (c', Ok tt) ->
       unconstrained_delegation_targets c' =
       unconstrained_delegation_targets c ++
       map node_name (filter (node_flag "unconstraineddelegation") nodes)) /\
  (forall l, extract_unconstrained_delegation_principals doc = Ok l ->
     exists nodes, doc_nodes doc = Ok nodes /\ forallb node_ok nodes = true) /\
  (forall node b,
     dict_get (node_props node) "unconstraineddelegation" (JBool false)
       = JBool b ->
     node_flag "unconstraineddelegation" node = b).
Proof.
  split; [|split].
  - intros nodes Hd Hok.
    pose proof (extract_delegation_ok doc nodes Hd Hok) as He.
    split; [exact He|]. intros c c' Hpf.
    pose proof (process_file_cases doc c) as H. cbv zeta in H.
    rewrite Hpf in H. simpl fst in H; simpl snd in H.
    destruct H as [[e [_ [_ Hr]]]|[hv [_ [_ H]]]]; [discriminate|].
    destruct H as [[e [Hr _]]|[priv [sd [_ [_ [_ H]]]]]]; [discriminate|].
    destruct H as [[e [Hr _]]|[dl [Hdl [_ Hc']]]]; [discriminate|].
    rewrite Hc'. congruence.
  - intros l H.
    destruct (extract_delegation_inv doc l H) as [nodes [Hd [Hok _]]]. eauto.
  - intros node b H. unfold node_flag. rewrite H. reflexivity.
Qed.

Lemma delegation_targets_in_document_order_witness :
  extract_unconstrained_delegation_principals delegation_doc =
    Ok [JStr "SRV2"; JStr "SRV1"; JStr "SRV2"].
Proof.
  exact (proj1 (proj1 (delegation_targets_in_document_order delegation_doc)
                  (match doc_nodes delegation_doc with
                   | Ok l => l | Raise _ => [] end)
                  eq_refl eq_refl)).
Defined.

(** ** C8: a file that fails *)

(** C8, as stated, fails in its last part: a file that fails after its
    high-value accounts were merged (here in the session extractor, on
    [sessions: null]) leaves them in the running collections, and the report
    shows them. *)
Lemma late_failure_keeps_partial_results :
  process_file (Ok late_failure_doc) empty_collections =
    ({| high_value_targets :=
          [("High Value", [JStr "A"]);
           ("Domain Admins / Enterprise Admins", [])];
        all_sessions := [];
        unconstrained_delegation_targets := [] |},
     Raise (TypeError "'NoneType' object is not iterable")) /\
  fst (process_file (Ok late_failure_doc) empty_collections)
    <> empty_collections /\
  main late_failure_world =
    [Prompt "Enter the path to your BloodHound JSON files: ";
     Print "Processing exports/late.json...";
     Print "Error processing late.json: 'NoneType' object is not iterable";
     PrintResults [("High Value", [JStr "A"]);
                   ("Domain Admins / Enterprise Admins", [])] [] []].
Proof.
  repeat split; try (vm_compute; reflexivity).
  vm_compute. intros H. discriminate H.
Qed.

Lemma fails_before_merge_unchanged (w : world) (folder filename : string)
  (e : exn) (c : collections) :
  fails_before_merge w folder filename e ->
  process_file (load_json w (path_join folder filename)) c = (c, Raise e).
Proof.
  intros [H|[doc [H1 H2]]].
  - rewrite H. reflexivity.
  - rewrite H1. now apply process_file_extract_fail.
Qed.

Lemma process_files_raise (w : world) (folder bad : string)
  (rest : list string) (c c' : collections) (e : exn) :
  endswith bad ".json" = true ->
  process_file (load_json w (path_join folder bad)) c = (c', Raise e) ->
  process_files w folder (bad :: rest) c =
    (fst (process_files w folder rest c'),
     Print ("Processing " ++ path_join folder bad ++ "...") ::
     Print ("Error processing " ++ bad ++ ": " ++ str_exn e) ::
     snd (process_files w folder rest c')).
Proof.
  intros Hj Hpf. cbn [process_files]. rewrite Hj, Hpf.
  destruct (process_files w folder rest c'); reflexivity.
Qed.

Lemma process_files_one (w : world) (folder good : string) (c : collections) :
  endswith good ".json" = true ->
  fst (process_files w folder [good] c) =
  fst (process_file (load_json w (path_join folder good)) c).
Proof.
  intros Hj. cbn [process_files]. rewrite Hj.
  destruct (process_file (load_json w (path_join folder good)) c).
  reflexivity.
Qed.

(** C8, amended: any exception raised while a [.json] file is processed is
    caught: the file is reported by name with the exception's message and the
    loop goes on with the next entry.  A file that cannot be loaded, or on
    which the high-value extractor raises, leaves the running collections
    unchanged, so the collections after the loop are those of the listing
    without it; with one such file and one other file, in either order, the
    collections handed to the report are exactly the other file's
    contributions. *)
Theorem failed_file_is_skipped (w : world) (folder bad : string) :
  endswith bad ".json" = true ->
  (forall rest c c' e,
     process_file (load_json w (path_join folder bad)) c = (c', Raise e) ->
     process_files w folder (bad :: rest) c =
       (fst (process_files w folder rest c'),
        Print ("Processing " ++ path_join folder bad ++ "...") ::
        Print ("Error processing " ++ bad ++ ": " ++ str_exn e) ::
        snd (process_files w folder rest c'))) /\
  (forall e, fails_before_merge w folder bad e ->
     (forall c, process_file (load_json w (path_join folder bad)) c =
                (c, Raise e)) /\
     (forall before after c,
        fst (process_files w folder (before ++ bad :: after) c) =
        fst (process_files w folder (before ++ after) c)) /\
     (forall good, endswith good ".json" = true ->
        let contributions :=
          fst (process_file (load_json w (path_join folder good))
                            empty_collections) in
        fst (process_files w folder [bad; good] empty_collections)
          = contributions /\
        fst (process_files w folder [good; bad] empty_collections)
          = contributions /\
        (input w = folder -> isdir w folder = true ->
         listdir w folder = [bad; good] ->
         exists out,
           main w =
             Prompt "Enter the path to your BloodHound JSON files: " ::
             Print ("Processing " ++ path_join folder bad ++ "...") ::
             Print ("Error processing " ++ bad ++ ": " ++ str_exn e) ::
             out ++ [print_results contributions] /\
           forallb is_print out = true))).
Proof.
  intros Hj. split.
  - intros rest c c' e Hpf. now apply process_files_raise.
  - intros e He.
    assert (Hsame : forall c,
              process_file (load_json w (path_join folder bad)) c =
              (c, Raise e))
      by (intros c; now apply fails_before_merge_unchanged).
    assert (Hskip : forall rest c,
              fst (process_files w folder (bad :: rest) c) =
              fst (process_files w folder rest c)).
    { intros rest c.
      now rewrite (process_files_raise w folder bad rest c c e Hj (Hsame c)). }
    split; [exact Hsame|]. split.
    + intros before after c. rewrite !process_files_app.
      destruct (process_files w folder before c) as [c1 o1].
      pose proof (Hskip after c1) as H.
      destruct (process_files w folder (bad :: after) c1) as [c2 o2].
      destruct (process_files w folder after c1) as [c3 o3].
      exact H.
    + intros good Hg contributions. split; [|split].
      * rewrite Hskip. now apply process_files_one.
      * change [good; bad] with ([good] ++ bad :: []).
        rewrite process_files_app.
        pose proof (process_files_one w folder good empty_collections Hg) as H1.
        destruct (process_files w folder [good] empty_collections) as [c1 o1].
        pose proof (Hskip [] c1) as H2.
        destruct (process_files w folder [bad] c1) as [c2 o2].
        unfold contributions. simpl in *. congruence.
      * intros Hin Hdir Hls. unfold main. rewrite Hin, Hdir, Hls. simpl negb.
        cbv iota.
        rewrite (process_files_raise w folder bad [good] empty_collections
                   empty_collections e Hj (Hsame _)).
        pose proof (process_files_one w folder good empty_collections Hg) as H1.
        pose proof (process_files_prints w folder [good] empty_collections)
          as H2.
        destruct (process_files w folder [good] empty_collections) as [c1 o1].
        simpl fst in *; simpl snd in *.
        exists o1. split; [|exact H2]. unfold contributions.
        rewrite <- H1. reflexivity.
Qed.

Lemma failed_file_is_skipped_witness :
  fst (process_files two_file_world "exports" ["bad.json"; "good.json"]
         empty_collections) =
  fst (process_file (Ok example_doc) empty_collections).
Proof.
  exact (proj1 (proj2 (proj2 (proj2
           (failed_file_is_skipped two_file_world "exports" "bad.json" eq_refl)
           (LoadError "Expecting value: line 1 column 1 (char 0)")
           (or_introl eq_refl)))
         "good.json" eq_refl)).
Defined.

(** ** C9: the invalid directory *)

(** Where [input] and the listing return, [run_main] is [main]. *)
Lemma run_main_main (w : os_world) (folder : string) (names : list string) :
  os_input w = Returned folder -> os_listdir w folder = Returned names ->
  run_main w = (main (world_of w folder names), None).
Proof.
  intros Hin Hls. unfold run_main, main. rewrite Hin. simpl.
  destruct (os_isdir w folder); simpl; [|reflexivity].
  rewrite Hls.
  destruct (process_files (world_of w folder names) folder names
              empty_collections) as [c out].
  reflexivity.
Qed.

(** C9, as stated, fails in "the only fatal error path": on a directory that
    passes [os.path.isdir] and cannot be listed, [os.listdir], which is
    outside the [try] block, raises; the exception escapes [main], which
    ends after the prompt, without the invalid-directory message and without
    a report. *)
Lemma unreadable_directory_is_fatal :
  os_input locked_directory_world = Returned "locked" /\
  os_isdir locked_directory_world "locked" = true /\
  run_main locked_directory_world =
    ([Prompt "Enter the path to your BloodHound JSON files: "],
     Some (OSError "[Errno 13] Permission denied: 'locked'")).
Proof. repeat split. Qed.

(** C9, amended: when the path typed at the prompt is not a directory,
    [main] prints the invalid-directory message and ends there: nothing is
    listed or loaded, no collection is built and no report is produced.  It
    is not the only run without a report: an exception of [os.listdir] on a
    path that is a directory, or of [input], escapes [main] and ends it
    right after the prompt.  A report is printed only when the prompt was
    answered with a directory whose listing returned. *)
Theorem invalid_directory_is_fatal (w : os_world) :
  (forall folder,
     os_input w = Returned folder -> os_isdir w folder = false ->
     run_main w =
       ([Prompt "Enter the path to your BloodHound JSON files: ";
         Print "Invalid directory. Please enter a valid path."], None)) /\
  (forall folder e,
     os_input w = Returned folder -> os_isdir w folder = true ->
     os_listdir w folder = Raised e ->
     run_main w =
       ([Prompt "Enter the path to your BloodHound JSON files: "], Some e)) /\
  (forall e,
     os_input w = Raised e ->
     run_main w =
       ([Prompt "Enter the path to your BloodHound JSON files: "], Some e)) /\
  (forall t s u,
     In (PrintResults t s u) (fst (run_main w)) ->
     exists folder names,
       os_input w = Returned folder /\ os_isdir w folder = true /\
       os_listdir w folder = Returned names).
Proof.
  unfold run_main. split; [|split; [|split]].
  - intros folder Hin Hdir. rewrite Hin, Hdir. reflexivity.
  - intros folder e Hin Hdir Hls. rewrite Hin, Hdir, Hls. reflexivity.
  - intros e Hin. rewrite Hin. reflexivity.
  - intros t s u. destruct (os_input w) as [folder|e].
    + destruct (os_isdir w folder) eqn:Hdir; simpl.
      * destruct (os_listdir w folder) as [names|e] eqn:Hls.
        -- intros _. exists folder, names. auto.
        -- simpl. intros [H|[]]. discriminate H.
      * intros [H|[H|[]]]; discriminate H.
    + simpl. intros [H|[]]. discriminate H.
Qed.

Lemma invalid_directory_is_fatal_witness :
  run_main missing_directory_world =
    ([Prompt "Enter the path to your BloodHound JSON files: ";
      Print "Invalid directory. Please enter a valid path."], None).
Proof.
  exact (proj1 (invalid_directory_is_fatal missing_directory_world)
               "" eq_refl eq_refl).
Defined.

(** ** C10: flags are tested for truthiness *)

(** C10: on a document whose nodes are all readable, the categories "High
    Value", "Kerberoastable Accounts", "Unconstrained Delegation" and "Allowed
    to Delegate", and the delegation list, hold the names of the nodes whose
    flag value is truthy, whether or not it is the boolean [true]; the string
    "false" and the integer 2 are truthy, and a node carrying them as flags is
    filed under all four categories and in the delegation list. *)
Theorem flags_tested_by_truthiness :
  (forall doc nodes,
     doc_nodes doc = Ok nodes -> forallb node_ok nodes = true ->
     let flagged flag :=
       map node_name
           (filter (fun node =>
                      truthy (dict_get (node_props node) flag (JBool false)))
                   nodes) in
     exists hv, extract_high_value_targets doc = Ok hv /\
       category "High Value" hv = flagged "highvalue" /\
       category "Kerberoastable Accounts" hv = flagged "hasspn" /\
       category "Unconstrained Delegation" hv =
         flagged "unconstraineddelegation" /\
       category "Allowed to Delegate" hv = flagged "allowedtodelegate" /\
       extract_unconstrained_delegation_principals doc =
         Ok (flagged "unconstraineddelegation")) /\
  (truthy (JStr "false") = true /\ JStr "false" <> JBool true /\
   truthy (JInt 2) = true /\ JInt 2 <> JBool true) /\
  extract_high_value_targets truthy_flags_doc =
    Ok [("High Value", [JStr "N"]);
        ("Kerberoastable Accounts", [JStr "N"]);
        ("Unconstrained Delegation", [JStr "N"]);
        ("Allowed to Delegate", [JStr "N"])] /\
  extract_unconstrained_delegation_principals truthy_flags_doc =
    Ok [JStr "N"].
Proof.
  split; [|split; [|split]].
  - intros doc nodes Hd Hok flagged.
    destruct (extract_high_value_targets_ok doc nodes Hd Hok) as [hv [H1 H2]].
    exists hv. split; [exact H1|].
    repeat (split; [exact (H2 _)|]).
    exact (extract_delegation_ok doc nodes Hd Hok).
  - repeat split; discriminate.
  - vm_compute. reflexivity.
  - vm_compute. reflexivity.
Qed.

Lemma flags_tested_by_truthiness_witness :
  exists hv, extract_high_value_targets truthy_flags_doc = Ok hv /\
    category "High Value" hv = [JStr "N"] /\
    category "Kerberoastable Accounts" hv = [JStr "N"] /\
    category "Unconstrained Delegation" hv = [JStr "N"] /\
    category "Allowed to Delegate" hv = [JStr "N"] /\
    extract_unconstrained_delegation_principals truthy_flags_doc =
      Ok [JStr "N"].
Proof.
  exact (proj1 flags_tested_by_truthiness truthy_flags_doc
           (match doc_nodes truthy_flags_doc with
            | Ok l => l | Raise _ => [] end)
           eq_refl eq_refl).
Defined.

(** * Part VI: further properties of the extractors and of the driver *)

(** ** Sets and keys *)

Lemma set_mem_trans (x y : json) (s : pyset) :
  py_eq x y = true -> set_mem y s = true -> set_mem x s = true.
Proof.
  intros Hxy Hy. apply set_mem_In in Hy as [z [Hz Hyz]].
  unfold set_mem. apply existsb_exists. exists z.
  split; [exact Hz | exact (py_eq_trans x y z Hxy Hyz)].
Qed.

Lemma set_mem_congr (x y : json) (s : pyset) :
  py_eq x y = true -> set_mem x s = set_mem y s.
Proof.
  intros Hxy. destruct (set_mem y s) eqn:Hy.
  - exact (set_mem_trans x y s Hxy Hy).
  - destruct (set_mem x s) eqn:Hx; [|reflexivity].
    rewrite py_eq_sym in Hxy. rewrite (set_mem_trans y x s Hxy Hx) in Hy.
    discriminate.
Qed.

Lemma set_mem_set_add (x y : json) (s : pyset) :
  set_mem x (set_add y s) = set_mem x s || py_eq x y.
Proof.
  unfold set_add. destruct (set_mem y s) eqn:Hy.
  - destruct (py_eq x y) eqn:Hxy; [|now rewrite orb_false_r].
    now rewrite (set_mem_trans x y s Hxy Hy).
  - rewrite set_mem_app. unfold set_mem at 2. simpl.
    now rewrite orb_false_r.
Qed.

Lemma set_mem_set_update (x : json) (t s : pyset) :
  set_mem x (set_update s t) = set_mem x s || set_mem x t.
Proof.
  unfold set_update. revert s.
  induction t as [|y t IH]; simpl; intros s.
  - now rewrite orb_false_r.
  - rewrite IH, set_mem_set_add. unfold set_mem at 4. simpl.
    now rewrite orb_assoc.
Qed.

Lemma set_add_nonempty (x : json) (s : pyset) : set_add x s <> [].
Proof.
  unfold set_add. destruct (set_mem x s) eqn:E.
  - destruct s; [discriminate | discriminate].
  - destruct s; discriminate.
Qed.

Lemma set_update_nonempty (t s : pyset) :
  s <> [] \/ t <> [] -> set_update s t <> [].
Proof.
  unfold set_update. revert s.
  induction t as [|y t IH]; simpl; intros s [H|H]; try exact H;
    try congruence.
  - apply IH. left. apply set_add_nonempty.
  - apply IH. left. apply set_add_nonempty.
Qed.

Lemma set_update_distinct (t s : pyset) :
  distinct s = true -> distinct (set_update s t) = true.
Proof.
  unfold set_update. revert s.
  induction t as [|y t IH]; simpl; intros s H; [exact H|].
  apply IH. now apply distinct_set_add.
Qed.

(** [set(l)] returns exactly when every element is hashable. *)
Lemma py_set_hashable (l : list json) :
  if forallb hashable l
  then py_set l = Ok (set_update [] l)
  else exists e, py_set l = Raise e.
Proof.
  unfold py_set, set_update. generalize (@nil json) as s.
  induction l as [|x l IH]; simpl; intros s; [reflexivity|].
  destruct (hashable x); simpl; [apply IH | eauto].
Qed.

(** The keys of a session map after [d[k] = f(d[k])]. *)
Lemma dd_upd_session_keys (f : pyset -> pyset) (k : json) (d : sessions) :
  map fst (dd_upd py_eq [] f k d) =
  if set_mem k (map fst d) then map fst d else map fst d ++ [k].
Proof.
  induction d as [|[k0 v] d IH]; simpl; [reflexivity|].
  unfold set_mem. simpl. destruct (py_eq k k0); simpl; [reflexivity|].
  rewrite IH. fold (set_mem k (map fst d)).
  destruct (set_mem k (map fst d)); reflexivity.
Qed.

Lemma dd_upd_keys_distinct (f : pyset -> pyset) (k : json) (d : sessions) :
  distinct (map fst d) = true ->
  distinct (map fst (dd_upd py_eq [] f k d)) = true.
Proof.
  intros H. rewrite dd_upd_session_keys.
  destruct (set_mem k (map fst d)) eqn:E; [exact H|].
  now apply distinct_snoc.
Qed.

Lemma sessions_at_absent (h : json) (d : sessions) :
  set_mem h (map fst d) = false -> sessions_at h d = [].
Proof.
  unfold sessions_at, set_mem.
  induction d as [|[k v] d IH]; simpl; intros H; [reflexivity|].
  apply orb_false_iff in H as [H1 H2]. rewrite H1. exact (IH H2).
Qed.

(** In a session map whose hosts are pairwise different, an item is what the
    subscript reads. *)
Lemma sessions_at_In (h : json) (s : pyset) (d : sessions) :
  distinct (map fst d) = true -> hashable h = true ->
  In (h, s) d -> sessions_at h d = s.
Proof.
  unfold sessions_at.
  induction d as [|[k v] d IH]; simpl; intros Hd Hh Hin; [contradiction|].
  destruct Hin as [Hin|Hin].
  - inversion Hin; subst. now rewrite (py_eq_refl h Hh).
  - apply andb_true_iff in Hd as [Hk Hd].
    destruct (py_eq h k) eqn:E; [|exact (IH Hd Hh Hin)].
    apply negb_true_iff in Hk.
    assert (Hm : set_mem h (map fst d) = true).
    { unfold set_mem. apply existsb_exists. exists h.
      split; [exact (in_map fst _ _ Hin) | exact (py_eq_refl h Hh)]. }
    rewrite py_eq_sym in E. rewrite (set_mem_trans k h _ E Hm) in Hk.
    discriminate.
Qed.

(** ** The shape of the high-value result *)

Lemma tg_append_wf (k : string) (name : json) (d : targets) :
  In k category_labels -> targets_wf d -> targets_wf (tg_append k name d).
Proof.
  unfold tg_append. intros Hk [Hnd Hent]. split.
  - exact (proj1 (dd_upd_keys _ k d Hnd)).
  - intros k0 l Hin.
    apply dd_upd_In in Hin as [Hin|[l0 [-> [Hin|[-> ->]]]]].
    + exact (Hent _ _ Hin).
    + split; [exact (proj1 (Hent _ _ Hin))|]. destruct l0; discriminate.
    + split; [exact Hk | discriminate].
Qed.

Lemma hv_apply_wf (node : json) (acc : targets) :
  targets_wf acc -> targets_wf (hv_apply node acc).
Proof.
  unfold hv_apply. intros H.
  repeat match goal with
  | |- context [if ?b then tg_append _ _ _ else _] => destruct b
  end;
  repeat (apply tg_append_wf; [unfold category_labels; simpl; tauto|]);
  exact H.
Qed.

Lemma for_each_hv_wf (nodes : list json) :
  forall acc hv, targets_wf acc ->
    for_each hv_node nodes acc = Ok hv -> targets_wf hv.
Proof.
  induction nodes as [|x nodes IH]; simpl; intros acc hv Hwf H.
  - inversion H; subst; exact Hwf.
  - apply bind_ok in H as [acc1 [H1 H2]].
    rewrite (hv_node_ok acc x (hv_node_ok_inv _ _ _ H1)) in H1.
    inversion H1; subst acc1.
    exact (IH _ _ (hv_apply_wf x acc Hwf) H2).
Qed.

Lemma category_In (k : string) (l : list json) (d : targets) :
  NoDup (map fst d) -> In (k, l) d -> category k d = l.
Proof.
  unfold category.
  induction d as [|[k0 v] d IH]; simpl; intros Hnd Hin; [contradiction|].
  inversion Hnd as [|? ? Hk0 Hd]; subst.
  destruct Hin as [Hin|Hin].
  - inversion Hin; subst. now rewrite String.eqb_refl.
  - destruct (k =? k0)%string eqn:E; [|exact (IH Hd Hin)].
    apply String.eqb_eq in E. subst k0.
    elim Hk0. exact (in_map fst _ _ Hin).
Qed.

Lemma filter_nonempty {A} (f : A -> bool) (l : list A) :
  filter f l <> [] <-> exists x, In x l /\ f x = true.
Proof.
  split.
  - intros H. destruct (filter f l) as [|x t] eqn:E; [congruence|].
    exists x. apply filter_In. rewrite E. now left.
  - intros [x Hx] E. apply filter_In in Hx. rewrite E in Hx. exact Hx.
Qed.

(** X1: what [extract_high_value_targets] returns has each category label at
    most once, only labels among the five, and no empty list; an item is
    what the subscript reads; and a label is present exactly when some node
    of the document passes its test. *)
Theorem high_value_result_shape (doc : json) (hv : targets) :
  extract_high_value_targets doc = Ok hv ->
  targets_wf hv /\
  (forall k l, In (k, l) hv -> category k hv = l) /\
  exists nodes, doc_nodes doc = Ok nodes /\
    forall k, In k (map fst hv) <->
              exists node, In node nodes /\ in_category k node = true.
Proof.
  intros H.
  assert (Hwf : targets_wf hv).
  { rewrite extract_high_value_targets_nodes in H.
    apply bind_ok in H as [nodes [_ Hrun]].
    refine (for_each_hv_wf nodes [] hv _ Hrun).
    split; [constructor | intros k l []]. }
  split; [exact Hwf|]. destruct Hwf as [Hnd Hent].
  split; [intros k l Hin; exact (category_In k l hv Hnd Hin)|].
  destruct (extract_high_value_targets_inv doc hv H) as [nodes [Hd [_ Hcat]]].
  exists nodes. split; [exact Hd|]. intros k.
  rewrite <- filter_nonempty. split.
  - intros Hin. apply in_map_iff in Hin as [[k' l] [E Hin]]. simpl in E.
    subst k'. intros Hf.
    pose proof (category_In k l hv Hnd Hin) as Hl.
    rewrite Hcat, Hf in Hl. simpl in Hl.
    exact (proj2 (Hent _ _ Hin) (eq_sym Hl)).
  - intros Hf. destruct (in_dec string_dec k (map fst hv)) as [Hin|Hout];
      [exact Hin|].
    pose proof (category_absent k hv Hout) as Hl. rewrite Hcat in Hl.
    destruct (filter (in_category k) nodes); [congruence | discriminate].
Qed.

Lemma high_value_result_shape_witness :
  targets_wf [("High Value", [JStr "A"]);
              ("Domain Admins / Enterprise Admins", [JStr "B"]);
              ("Unconstrained Delegation", [JStr "B"])].
Proof.
  exact (proj1 (high_value_result_shape example_doc _ eq_refl)).
Defined.

(** ** Unreadable nodes *)

Lemma attr_get_raise (o : json) :
  match o with
  | JObj m => attr_get o = Ok m
  | _ => attr_get o = Raise (no_attribute_get o)
  end.
Proof. destruct o; reflexivity. Qed.

Lemma hv_node_unreadable (acc : targets) (node : json) :
  node_ok node = false -> hv_node acc node = Raise (node_error node).
Proof.
  unfold node_ok, hv_node, node_error, py_get. intros H.
  destruct node as [| | | | | |m]; try reflexivity. simpl.
  destruct (dict_get m "properties" (JObj [])); try discriminate;
    reflexivity.
Qed.

Lemma deleg_node_unreadable (acc : list json) (node : json) :
  node_ok node = false -> deleg_node acc node = Raise (node_error node).
Proof.
  unfold node_ok, deleg_node, node_error, py_get. intros H.
  destruct node as [| | | | | |m]; try reflexivity. simpl.
  destruct (dict_get m "properties" (JObj [])); try discriminate;
    reflexivity.
Qed.

Lemma sess_node_unreadable (priv : pyset) (sd : sessions) (node : json) :
  node_ok node = false -> sess_node priv sd node = Raise (node_error node).
Proof.
  unfold node_ok, sess_node, node_error, py_get. intros H.
  destruct node as [| | | | | |m]; try reflexivity. simpl.
  destruct (dict_get m "properties" (JObj [])); try discriminate;
    reflexivity.
Qed.

Lemma first_unreadable_none (nodes : list json) :
  first_unreadable nodes = None <-> forallb node_ok nodes = true.
Proof.
  unfold first_unreadable. induction nodes as [|x nodes IH]; simpl.
  - tauto.
  - destruct (node_ok x); simpl; [exact IH|]. split; discriminate.
Qed.

Lemma for_each_hv_unreadable (nodes : list json) (bad : json) :
  first_unreadable nodes = Some bad ->
  forall acc, for_each hv_node nodes acc = Raise (node_error bad).
Proof.
  unfold first_unreadable.
  induction nodes as [|x nodes IH]; simpl; intros H acc; [discriminate|].
  destruct (node_ok x) eqn:E; simpl in H.
  - rewrite (hv_node_ok acc x E). simpl. exact (IH H _).
  - inversion H; subst. now rewrite (hv_node_unreadable acc bad E).
Qed.

Lemma for_each_deleg_unreadable (nodes : list json) (bad : json) :
  first_unreadable nodes = Some bad ->
  forall acc, for_each deleg_node nodes acc = Raise (node_error bad).
Proof.
  unfold first_unreadable.
  induction nodes as [|x nodes IH]; simpl; intros H acc; [discriminate|].
  destruct (node_ok x) eqn:E; simpl in H.
  - rewrite (deleg_node_ok acc x E). simpl. exact (IH H _).
  - inversion H; subst. now rewrite (deleg_node_unreadable acc bad E).
Qed.

Lemma extract_delegation_from_high_value (doc : json) :
  extract_unconstrained_delegation_principals doc =
  (hv <- extract_high_value_targets doc ;;
   Ok (category "Unconstrained Delegation" hv)).
Proof.
  rewrite extract_delegation_nodes, extract_high_value_targets_nodes.
  destruct (doc_nodes doc) as [nodes|e]; simpl; [|reflexivity].
  destruct (first_unreadable nodes) as [bad|] eqn:E.
  - rewrite (for_each_deleg_unreadable nodes bad E),
            (for_each_hv_unreadable nodes bad E). reflexivity.
  - apply first_unreadable_none in E.
    rewrite (for_each_deleg nodes E).
    destruct (for_each_hv nodes E []) as [hv [H1 H2]].
    rewrite H1. simpl. now rewrite H2.
Qed.

(** X2: the delegation extractor and the high-value extractor stop on the
    same documents with the same exception, and where they return the
    delegation list is the "Unconstrained Delegation" category. *)
Theorem delegation_is_the_unconstrained_category (doc : json) :
  (forall e, extract_high_value_targets doc = Raise e <->
             extract_unconstrained_delegation_principals doc = Raise e) /\
  (forall hv, extract_high_value_targets doc = Ok hv ->
     extract_unconstrained_delegation_principals doc =
       Ok (category "Unconstrained Delegation" hv)).
Proof.
  pose proof (extract_delegation_from_high_value doc) as H.
  destruct (extract_high_value_targets doc) as [hv|e0]; simpl in H.
  - split.
    + intros e. rewrite H. split; discriminate.
    + intros hv' E. inversion E; subst. exact H.
  - split.
    + intros e. rewrite H. split; intros E; inversion E; reflexivity.
    + intros hv E. discriminate.
Qed.

Lemma delegation_is_the_unconstrained_category_witness :
  extract_unconstrained_delegation_principals example_doc = Ok [JStr "B"].
Proof.
  exact (proj2 (delegation_is_the_unconstrained_category example_doc)
           _ eq_refl).
Defined.

(** X3: the outcome of [extract_high_value_targets], case by case: on an
    object that is not a dict the [AttributeError] of [.get]; on a [nodes]
    entry that cannot be iterated its [TypeError]; on a document with an
    unreadable node the [AttributeError] of the first such node, whatever
    the nodes before and after it hold; a result in every other case. *)
Theorem high_value_extractor_outcome (doc : json) :
  match doc with
  | JObj m =>
      match py_iter (dict_get m "nodes" (JArr [])) with
      | Ok nodes =>
          match first_unreadable nodes with
          | Some bad =>
              extract_high_value_targets doc = Raise (node_error bad)
          | None => exists hv, extract_high_value_targets doc = Ok hv
          end
      | Raise e => extract_high_value_targets doc = Raise e
      end
  | _ => extract_high_value_targets doc = Raise (no_attribute_get doc)
  end.
Proof.
  destruct doc as [| | | | | |m]; try reflexivity.
  unfold extract_high_value_targets, py_get. simpl.
  destruct (py_iter (dict_get m "nodes" (JArr []))) as [nodes|e];
    simpl; [|reflexivity].
  destruct (first_unreadable nodes) as [bad|] eqn:E.
  - exact (for_each_hv_unreadable nodes bad E []).
  - apply first_unreadable_none in E.
    destruct (for_each_hv nodes E []) as [hv [H _]]. eauto.
Qed.

(** ** The shape of the session map *)

Lemma sessions_wf_nil : sessions_wf [].
Proof. split; [reflexivity | intros h s []]. Qed.

Lemma sessions_wf_upd (f : pyset -> pyset) (k : json) (d : sessions) :
  hashable k = true ->
  (forall s, (s = [] \/ (s <> [] /\ distinct s = true)) ->
             f s <> [] /\ distinct (f s) = true) ->
  sessions_wf d -> sessions_wf (dd_upd py_eq [] f k d).
Proof.
  intros Hk Hf [Hkeys Hent]. split.
  - now apply dd_upd_keys_distinct.
  - intros h s Hin.
    apply dd_upd_In in Hin as [Hin|[s0 [-> [Hin|[-> ->]]]]].
    + exact (Hent _ _ Hin).
    + destruct (Hent _ _ Hin) as [Hh [Hne Hd]].
      split; [exact Hh|]. apply Hf. right. auto.
    + split; [exact Hk|]. apply Hf. now left.
Qed.

Lemma set_add_wf (x : json) (s : pyset) :
  s = [] \/ (s <> [] /\ distinct s = true) ->
  set_add x s <> [] /\ distinct (set_add x s) = true.
Proof.
  intros H. split; [apply set_add_nonempty|].
  apply distinct_set_add. destruct H as [->|[_ H]]; [reflexivity | exact H].
Qed.

Lemma session_step_wf (priv : pyset) (host : json) (sd sd' : sessions)
  (session : json) :
  sessions_wf sd -> session_step priv host sd session = Ok sd' ->
  sessions_wf sd'.
Proof.
  intros Hwf H. pose proof (session_step_inv _ _ _ _ _ H) as Hok.
  rewrite (session_step_ok priv host sd session Hok) in H.
  destruct (set_mem (session_username session) priv);
    [|inversion H; subst; exact Hwf].
  destruct (hashable host) eqn:Hh; [|discriminate]. inversion H; subst sd'.
  apply sessions_wf_upd; [exact Hh | apply set_add_wf | exact Hwf].
Qed.

Lemma for_each_session_wf (priv : pyset) (host : json) (items : list json) :
  forall sd sd', sessions_wf sd ->
    for_each (session_step priv host) items sd = Ok sd' -> sessions_wf sd'.
Proof.
  induction items as [|x items IH]; simpl; intros sd sd' Hwf H.
  - inversion H; subst; exact Hwf.
  - apply bind_ok in H as [sd1 [H1 H2]].
    exact (IH _ _ (session_step_wf _ _ _ _ _ Hwf H1) H2).
Qed.

Lemma for_each_sess_node_wf (priv : pyset) (nodes : list json) :
  forall sd sd', sessions_wf sd ->
    for_each (sess_node priv) nodes sd = Ok sd' -> sessions_wf sd'.
Proof.
  induction nodes as [|x nodes IH]; simpl; intros sd sd' Hwf H.
  - inversion H; subst; exact Hwf.
  - apply bind_ok in H as [sd1 [H1 H2]].
    destruct (sess_node_inv _ _ _ _ H1) as [_ [items [_ Hrun]]].
    exact (IH _ _ (for_each_session_wf _ _ _ _ _ Hwf Hrun) H2).
Qed.

Lemma extract_sessions_wf (doc : json) (priv : pyset) (sd : sessions) :
  extract_sessions doc priv = Ok sd -> sessions_wf sd.
Proof.
  rewrite extract_sessions_nodes. intros H.
  apply bind_ok in H as [nodes [_ Hrun]].
  exact (for_each_sess_node_wf priv nodes [] sd sessions_wf_nil Hrun).
Qed.

(** X4: in the session map [extract_sessions] returns no two hosts are
    equal, every host has at least one user and no user twice, an item is
    what the subscript reads, and a host is present exactly when the
    document shows a privileged user logged in on it. *)
Theorem session_map_shape (doc : json) (priv : pyset) (sd : sessions) :
  extract_sessions doc priv = Ok sd ->
  sessions_wf sd /\
  (forall h s, In (h, s) sd -> sessions_at h sd = s) /\
  exists nodes, doc_nodes doc = Ok nodes /\
    forall h, sessions_at h sd <> [] <-> host_users priv h nodes <> [].
Proof.
  intros H. pose proof (extract_sessions_wf doc priv sd H) as Hwf.
  split; [exact Hwf|]. split.
  - intros h s Hin. destruct Hwf as [Hkeys Hent].
    exact (sessions_at_In h s sd Hkeys (proj1 (Hent _ _ Hin)) Hin).
  - destruct (extract_sessions_inv doc priv sd H) as [nodes [Hd [_ Hat]]].
    exists nodes. split; [exact Hd|]. intros h. rewrite Hat. split.
    + intros Hne E. rewrite E in Hne. now apply Hne.
    + intros Hne. apply set_update_nonempty. now right.
Qed.

Lemma session_map_shape_witness :
  sessions_wf [(JStr "B", [JStr "A"])].
Proof.
  exact (proj1 (session_map_shape example_doc [JStr "B"; JStr "A"]
                  [(JStr "B", [JStr "A"])] eq_refl)).
Defined.

(** X5: called with the empty set, [extract_sessions] returns the empty
    map on every document it gets through, and it gets through every
    document whose nodes and sessions are readable, whatever the hosts. *)
Theorem no_privileged_account_no_session (doc : json) :
  (forall sd, extract_sessions doc [] = Ok sd -> sd = []) /\
  (forall nodes,
     doc_nodes doc = Ok nodes ->
     forallb (fun node =>
                node_ok node &&
                match node_sessions node with
                | Ok items => forallb session_ok items
                | Raise _ => false
                end) nodes = true ->
     extract_sessions doc [] = Ok []).
Proof.
  assert (Hempty : forall sd, extract_sessions doc [] = Ok sd -> sd = []).
  { intros sd H. destruct sd as [|[h s] sd]; [reflexivity|].
    destruct (extract_sessions_wf doc [] _ H) as [_ Hent].
    destruct (Hent h s (or_introl eq_refl)) as [_ [Hne _]].
    destruct s as [|u s]; [congruence|].
    pose proof (extract_sessions_privileged doc [] _ H h (u :: s) u
                  (or_introl eq_refl) (or_introl eq_refl)) as Hp.
    discriminate. }
  split; [exact Hempty|]. intros nodes Hd Hok.
  assert (Hok' : forallb (sess_node_ok []) nodes = true).
  { apply forallb_forall. intros node Hin.
    pose proof (proj1 (forallb_forall _ _) Hok node Hin) as Hn.
    unfold sess_node_ok, priv_users. rewrite Hn.
    destruct (node_sessions node) as [items|e]; [|apply orb_true_r].
    assert (E : filter (fun u => set_mem u []) (map session_username items)
                = []).
    { generalize (map session_username items) as l.
      induction l as [|x l IH]; simpl; [reflexivity | exact IH]. }
    rewrite E. apply orb_true_r. }
  destruct (extract_sessions_ok doc [] nodes Hd Hok') as [sd [H _]].
  rewrite H. f_equal. exact (Hempty sd H).
Qed.

Lemma no_privileged_account_no_session_witness :
  extract_sessions example_doc [] = Ok [].
Proof.
  exact (proj2 (no_privileged_account_no_session example_doc)
           (match doc_nodes example_doc with Ok l => l | Raise _ => [] end)
           eq_refl eq_refl).
Defined.

(** X6: a larger privileged set never loses a session: when
    [extract_sessions] returns for two sets, the second holding every
    member of the first, each user reported for a host under the first set
    is reported for it under the second. *)
Theorem sessions_monotone_in_privileged_set (doc : json) (priv priv' : pyset)
  (sd sd' : sessions) :
  (forall u, set_mem u priv = true -> set_mem u priv' = true) ->
  extract_sessions doc priv = Ok sd ->
  extract_sessions doc priv' = Ok sd' ->
  forall h u, set_mem u (sessions_at h sd) = true ->
              set_mem u (sessions_at h sd') = true.
Proof.
  intros Hsub H H' h u.
  destruct (extract_sessions_inv doc priv sd H) as [nodes [Hd [_ Hat]]].
  destruct (extract_sessions_inv doc priv' sd' H') as [nodes' [Hd' [_ Hat']]].
  assert (nodes' = nodes) by congruence. subst nodes'.
  rewrite Hat, Hat', !set_mem_set_update. simpl.
  unfold set_mem, host_users. rewrite !existsb_exists.
  intros [x [Hx Hux]]. exists x. split; [|exact Hux].
  apply in_flat_map in Hx as [node [Hn Hx]]. apply in_flat_map.
  exists node. split; [exact Hn|].
  destruct (py_eq h (node_name node)); [|exact Hx].
  unfold priv_users in *. destruct (node_sessions node); [|exact Hx].
  apply filter_In in Hx as [Hx Hp]. apply filter_In.
  split; [exact Hx | exact (Hsub _ Hp)].
Qed.

Lemma sessions_monotone_in_privileged_set_witness :
  set_mem (JStr "A") (sessions_at (JStr "B") [(JStr "B", [JStr "A"])]) = true.
Proof.
  refine (sessions_monotone_in_privileged_set example_doc
            [JStr "A"] [JStr "B"; JStr "A"]
            [(JStr "B", [JStr "A"])] [(JStr "B", [JStr "A"])]
            _ eq_refl eq_refl (JStr "B") (JStr "A") eq_refl).
  intros u H. unfold set_mem in *. simpl in *.
  rewrite orb_false_r in H. rewrite H. apply orb_true_r.
Defined.

(** ** One file, step by step *)

(** The [try] block written out: the delegation step cannot raise once the
    high-value step has returned. *)
Lemma process_file_steps (doc : json) (c : collections) :
  process_file (Ok doc) c =
  match extract_high_value_targets doc with
  | Raise e => (c, Raise e)
  | Ok hv =>
    let hvt := merged_targets (high_value_targets c) hv in
    let c1 := {| high_value_targets := hvt;
                 all_sessions := all_sessions c;
                 unconstrained_delegation_targets :=
                   unconstrained_delegation_targets c |} in
    match py_set (category DA hvt ++ category HV hvt) with
    | Raise e => (c1, Raise e)
    | Ok priv =>
      match extract_sessions doc priv with
      | Raise e => (c1, Raise e)
      | Ok sd =>
        ({| high_value_targets := hvt;
            all_sessions := merge_sessions (all_sessions c) sd;
            unconstrained_delegation_targets :=
              unconstrained_delegation_targets c ++
              category "Unconstrained Delegation" hv |}, Ok tt)
      end
    end
  end.
Proof.
  unfold process_file. rewrite extract_delegation_from_high_value.
  destruct (extract_high_value_targets doc) as [hv|e]; [|reflexivity].
  cbv zeta. fold (merged_targets (high_value_targets c) hv).
  change (dd_read String.eqb []
            "Domain Admins / Enterprise Admins"
            (merged_targets (high_value_targets c) hv))
    with (category DA (merged_targets (high_value_targets c) hv)).
  change (dd_read String.eqb [] "High Value"
            (merged_targets (high_value_targets c) hv))
    with (category HV (merged_targets (high_value_targets c) hv)).
  destruct (py_set _) as [priv|e]; [|reflexivity].
  destruct (extract_sessions doc priv) as [sd|e]; reflexivity.
Qed.

Lemma category_merged_targets (k : string) (running hv : targets) :
  NoDup (map fst hv) ->
  category k (merged_targets running hv) = category k running ++ category k hv.
Proof.
  intros Hnd. unfold merged_targets. rewrite !category_upd.
  rewrite (category_merge_targets k hv running Hnd).
  destruct (k =? "High Value")%string,
           (k =? "Domain Admins / Enterprise Admins")%string; reflexivity.
Qed.

(** X7: a file gets through the [try] block exactly when the high-value
    extractor returns, every name then under "Domain Admins / Enterprise
    Admins" and "High Value" is hashable, and the session extractor returns
    for the set of these names; the delegation step never raises, and the
    file then appends its "Unconstrained Delegation" names to the running
    delegation list. *)
Theorem file_outcome (doc : json) (c : collections) :
  (snd (process_file (Ok doc) c) = Ok tt <->
   exists hv priv sd,
     extract_high_value_targets doc = Ok hv /\
     py_set (priv_list {| high_value_targets :=
                            merged_targets (high_value_targets c) hv;
                          all_sessions := all_sessions c;
                          unconstrained_delegation_targets :=
                            unconstrained_delegation_targets c |})
       = Ok priv /\
     extract_sessions doc priv = Ok sd) /\
  (forall hv,
     snd (process_file (Ok doc) c) = Ok tt ->
     extract_high_value_targets doc = Ok hv ->
     unconstrained_delegation_targets (fst (process_file (Ok doc) c)) =
     unconstrained_delegation_targets c ++
     category "Unconstrained Delegation" hv).
Proof.
  rewrite process_file_steps. unfold priv_list. simpl high_value_targets.
  destruct (extract_high_value_targets doc) as [hv|e]; cbv zeta.
  - destruct (py_set _) as [priv|e] eqn:Ep.
    + destruct (extract_sessions doc priv) as [sd|e] eqn:Es; simpl.
      * split.
        -- split; [intros _; exists hv, priv, sd; auto | reflexivity].
        -- intros hv' _ E. inversion E; subst. reflexivity.
      * split.
        -- split; [discriminate|].
           intros [hv' [priv' [sd' [E [Ep' Es']]]]]. inversion E; subst hv'.
           rewrite Ep in Ep'. inversion Ep'; subst priv'.
           rewrite Es in Es'. discriminate.
        -- discriminate.
    + simpl. split.
      * split; [discriminate|].
        intros [hv' [priv' [sd' [E [Ep' _]]]]]. inversion E; subst hv'.
        rewrite Ep in Ep'. discriminate.
      * discriminate.
  - simpl. split.
    + split; [discriminate|]. intros [hv [_ [_ [E _]]]]. discriminate.
    + discriminate.
Qed.

Lemma file_outcome_witness :
  unconstrained_delegation_targets
    (fst (process_file (Ok example_doc) empty_collections)) =
  [] ++ category "Unconstrained Delegation"
          [("High Value", [JStr "A"]);
           ("Domain Admins / Enterprise Admins", [JStr "B"]);
           ("Unconstrained Delegation", [JStr "B"])].
Proof.
  exact (proj2 (file_outcome example_doc empty_collections) _
           eq_refl eq_refl).
Defined.

(** ** Merging session maps *)

(** Merging is the union host by host. *)
Lemma merge_sessions_mem (u h : json) (extracted d : sessions) :
  distinct (map fst extracted) = true ->
  set_mem u (sessions_at h (merge_sessions d extracted)) =
  set_mem u (sessions_at h d) || set_mem u (sessions_at h extracted).
Proof.
  unfold merge_sessions. revert d.
  induction extracted as [|[k v] e IH]; simpl; intros d Hd.
  - now rewrite orb_false_r.
  - apply andb_true_iff in Hd as [Hk Hd]. apply negb_true_iff in Hk.
    rewrite (IH _ Hd), sessions_at_upd.
    change (sessions_at h ((k, v) :: e))
      with (if py_eq h k then v else sessions_at h e).
    destruct (py_eq h k) eqn:E; [|reflexivity].
    rewrite set_mem_set_update.
    assert (Hh : set_mem h (map fst e) = false)
      by (rewrite (set_mem_congr h k _ E); exact Hk).
    rewrite (sessions_at_absent h e Hh). unfold set_mem at 3. simpl.
    now rewrite orb_false_r.
Qed.

Lemma merge_sessions_wf (extracted d : sessions) :
  sessions_wf extracted -> sessions_wf d ->
  sessions_wf (merge_sessions d extracted).
Proof.
  unfold merge_sessions. intros [_ Hent]. revert d.
  induction extracted as [|[k v] e IH]; simpl; intros d Hd; [exact Hd|].
  destruct (Hent k v (or_introl eq_refl)) as [Hk [Hne Hv]].
  apply IH; [intros h s Hin; apply Hent; now right|].
  apply sessions_wf_upd; [exact Hk | | exact Hd].
  intros s Hs. split.
  - apply set_update_nonempty. now right.
  - apply set_update_distinct. destruct Hs as [->|[_ Hs]];
      [reflexivity | exact Hs].
Qed.

(** X8: after any run the running session map lists no host twice, no host
    without a user and no user twice under a host, so its items are what
    the subscripts read. *)
Theorem running_session_map_shape (w : world) (folder : string)
  (names : list string) :
  let d := all_sessions (fst (process_files w folder names empty_collections))
  in sessions_wf d /\ forall h s, In (h, s) d -> sessions_at h d = s.
Proof.
  cbv zeta.
  assert (Hwf : sessions_wf
                  (all_sessions
                     (fst (process_files w folder names empty_collections)))).
  { apply (process_files_invariant (fun c => sessions_wf (all_sessions c)));
      [|exact sessions_wf_nil].
    intros loaded c Hc. destruct loaded as [doc|e]; [|exact Hc].
    rewrite process_file_steps.
    destruct (extract_high_value_targets doc) as [hv|e]; [|exact Hc].
    cbv zeta. destruct (py_set _) as [priv|e]; [|exact Hc].
    destruct (extract_sessions doc priv) as [sd|e] eqn:Es; [|exact Hc].
    simpl. apply merge_sessions_wf; [|exact Hc].
    exact (extract_sessions_wf doc priv sd Es). }
  split; [exact Hwf|]. intros h s Hin. destruct Hwf as [Hkeys Hent].
  exact (sessions_at_In h s _ Hkeys (proj1 (Hent _ _ Hin)) Hin).
Qed.

Lemma running_session_map_shape_witness :
  sessions_at (JStr "B")
    (all_sessions (fst (process_files two_file_world "exports"
                          ["bad.json"; "good.json"] empty_collections)))
  = [JStr "A"].
Proof.
  exact (proj2 (running_session_map_shape two_file_world "exports"
                  ["bad.json"; "good.json"])
           (JStr "B") [JStr "A"] (or_introl eq_refl)).
Defined.

(** ** Nothing is removed *)

Lemma extends_refl (c : collections) : extends c c.
Proof.
  split; [|split].
  - intros k. exists []. now rewrite app_nil_r.
  - exists []. now rewrite app_nil_r.
  - auto.
Qed.

Lemma extends_trans (c1 c2 c3 : collections) :
  extends c1 c2 -> extends c2 c3 -> extends c1 c3.
Proof.
  intros [H1 [H2 H3]] [G1 [G2 G3]]. split; [|split].
  - intros k. destruct (H1 k) as [l Hl], (G1 k) as [l' Hl'].
    exists (l ++ l'). now rewrite Hl', Hl, app_assoc.
  - destruct H2 as [l Hl], G2 as [l' Hl'].
    exists (l ++ l'). now rewrite Hl', Hl, app_assoc.
  - auto.
Qed.

Lemma process_file_extends (loaded : result json) (c : collections) :
  extends c (fst (process_file loaded c)).
Proof.
  destruct loaded as [doc|e]; [|apply extends_refl].
  rewrite process_file_steps.
  destruct (extract_high_value_targets doc) as [hv|e] eqn:Ehv;
    [|apply extends_refl].
  cbv zeta.
  assert (Hcat : forall k, exists l,
            category k (merged_targets (high_value_targets c) hv) =
            category k (high_value_targets c) ++ l).
  { intros k. exists (category k hv). apply category_merged_targets.
    exact (extract_high_value_targets_keys doc hv Ehv). }
  destruct (py_set _) as [priv|e].
  - destruct (extract_sessions doc priv) as [sd|e] eqn:Es; simpl.
    + split; [exact Hcat|]. split; [eexists; reflexivity|].
      simpl. intros h u Hu.
      rewrite merge_sessions_mem, Hu; [reflexivity|].
      exact (proj1 (extract_sessions_wf doc priv sd Es)).
    + split; [exact Hcat|]. split; [exists []; now rewrite app_nil_r | auto].
  - simpl. split; [exact Hcat|].
    split; [exists []; now rewrite app_nil_r | auto].
Qed.

(** X9: a run only adds: whatever the files and their outcomes, every
    category list and the delegation list before the run are prefixes of
    those after it, and every user of a host before the run is a user of
    that host after it. *)
Theorem run_only_adds (w : world) (folder : string) (names : list string)
  (c : collections) :
  extends c (fst (process_files w folder names c)) /\
  (forall loaded, extends c (fst (process_file loaded c))).
Proof.
  split; [|intros loaded; apply process_file_extends].
  apply (process_files_invariant (extends c)); [|apply extends_refl].
  intros loaded c' Hc'.
  exact (extends_trans c c' _ Hc' (process_file_extends loaded c')).
Qed.

(** ** The running high-value lists *)

Lemma dd_upd_has_key (f : list json -> list json) (k : string) (d : targets) :
  In k (map fst (dd_upd String.eqb [] f k d)).
Proof.
  induction d as [|[k0 v] d IH]; simpl; [now left|].
  destruct (k =? k0)%string eqn:E; simpl.
  - left. apply String.eqb_eq in E. now subst.
  - now right.
Qed.

Lemma dd_upd_keeps_key (f : list json -> list json) (k k' : string)
  (d : targets) :
  In k' (map fst d) -> In k' (map fst (dd_upd String.eqb [] f k d)).
Proof.
  induction d as [|[k0 v] d IH]; simpl; [contradiction|].
  destruct (k =? k0)%string; simpl; intuition.
Qed.

Lemma tg_upd_In (f : list json -> list json) (k k0 : string)
  (l : list json) (d : targets) :
  In (k0, l) (dd_upd String.eqb [] f k d) ->
  In (k0, l) d \/
  (k0 = k /\ exists l0, l = f l0 /\ (In (k, l0) d \/ l0 = [])).
Proof.
  induction d as [|[k1 v1] d IH]; simpl.
  - intros [H|[]]. inversion H; subst. right. eauto.
  - destruct (k =? k1)%string eqn:E; simpl.
    + apply String.eqb_eq in E. subst k1.
      intros [H|H]; [|auto]. inversion H; subst. right.
      split; [reflexivity|]. exists v1. split; [reflexivity|]. left. now left.
    + intros [H|H]; [auto|].
      destruct (IH H) as [H'|[-> [l0 [-> [H'|H']]]]]; [auto| |].
      * right. split; [reflexivity|]. exists l0. split; [reflexivity|].
        left. now right.
      * right. split; [reflexivity|]. exists l0. split; [reflexivity|].
        now right.
Qed.

(** The first two parts of [running_targets_wf] are kept by an update
    under a label that leaves no list empty, or that is one of the two
    labels [main] subscripts. *)
Lemma running_upd (f : list json -> list json) (k : string) (t : targets) :
  In k category_labels ->
  (forall l, f l = [] -> k = DA \/ k = HV) ->
  NoDup (map fst t) /\
  (forall k l, In (k, l) t ->
     In k category_labels /\ (l = [] -> k = DA \/ k = HV)) ->
  NoDup (map fst (dd_upd String.eqb [] f k t)) /\
  (forall k0 l, In (k0, l) (dd_upd String.eqb [] f k t) ->
     In k0 category_labels /\ (l = [] -> k0 = DA \/ k0 = HV)).
Proof.
  intros Hk Hf [Hnd Hent]. split.
  - exact (proj1 (dd_upd_keys f k t Hnd)).
  - intros k0 l Hin.
    apply tg_upd_In in Hin as [Hin|[-> [l0 [-> _]]]].
    + exact (Hent _ _ Hin).
    + split; [exact Hk | exact (Hf l0)].
Qed.

Lemma running_merge (hv t : targets) :
  targets_wf hv ->
  NoDup (map fst t) /\
  (forall k l, In (k, l) t ->
     In k category_labels /\ (l = [] -> k = DA \/ k = HV)) ->
  NoDup (map fst (merge_targets t hv)) /\
  (forall k l, In (k, l) (merge_targets t hv) ->
     In k category_labels /\ (l = [] -> k = DA \/ k = HV)).
Proof.
  unfold merge_targets. intros [_ Hent]. revert t.
  induction hv as [|[k v] hv IH]; simpl; intros t Ht; [exact Ht|].
  destruct (Hent k v (or_introl eq_refl)) as [Hk Hv].
  apply IH; [intros k0 l Hin; apply Hent; now right|].
  apply running_upd; [exact Hk | | exact Ht].
  intros l E. apply app_eq_nil in E as [_ E]. contradiction.
Qed.

Lemma extract_high_value_targets_wf (doc : json) (hv : targets) :
  extract_high_value_targets doc = Ok hv -> targets_wf hv.
Proof.
  rewrite extract_high_value_targets_nodes. intros H.
  apply bind_ok in H as [nodes [_ Hrun]].
  refine (for_each_hv_wf nodes [] hv _ Hrun).
  split; [constructor | intros k l []].
Qed.

Lemma merged_targets_wf (hv t : targets) :
  targets_wf hv -> running_targets_wf t ->
  running_targets_wf (merged_targets t hv).
Proof.
  intros Hhv [Hnd [Hent _]]. unfold merged_targets.
  assert (Hl : In DA category_labels /\ In HV category_labels)
    by (unfold category_labels, DA, HV; simpl; tauto).
  pose proof (running_merge hv t Hhv (conj Hnd Hent)) as H0.
  pose proof (running_upd (fun l => l) DA _ (proj1 Hl)
                (fun _ _ => or_introl eq_refl) H0) as H1.
  pose proof (running_upd (fun l => l) HV _ (proj2 Hl)
                (fun _ _ => or_intror eq_refl) H1) as H2.
  destruct H2 as [H2 H3]. split; [exact H2|]. split; [exact H3|].
  intros _. split.
  - apply dd_upd_keeps_key. apply dd_upd_has_key.
  - apply (dd_upd_has_key (fun l => l) HV).
Qed.

(** X10: after any run the running high-value lists hold each label once
    and only labels among the five; a list is empty only under "Domain
    Admins / Enterprise Admins" or "High Value", the two labels [main]
    subscripts; and these two are present as soon as any label is, so the
    report shows either no category at all or at least these two. *)
Theorem running_targets_shape (w : world) (folder : string)
  (names : list string) :
  running_targets_wf
    (high_value_targets
       (fst (process_files w folder names empty_collections))) /\
  (forall doc hv c,
     extract_high_value_targets doc = Ok hv ->
     let t := high_value_targets (fst (process_file (Ok doc) c)) in
     In DA (map fst t) /\ In HV (map fst t)).
Proof.
  split.
  - apply (process_files_invariant
             (fun c => running_targets_wf (high_value_targets c))).
    + intros loaded c Hc. destruct loaded as [doc|e]; [|exact Hc].
      rewrite process_file_steps.
      destruct (extract_high_value_targets doc) as [hv|e] eqn:Ehv;
        [|exact Hc].
      cbv zeta.
      pose proof (merged_targets_wf hv _
                    (extract_high_value_targets_wf doc hv Ehv) Hc) as Hm.
      destruct (py_set _) as [priv|e]; [|exact Hm].
      destruct (extract_sessions doc priv) as [sd|e]; exact Hm.
    + split; [constructor|].
      split; [intros k l [] | intros H; elim H; reflexivity].
  - intros doc hv c Ehv. cbv zeta. rewrite process_file_steps, Ehv. cbv zeta.
    assert (Hk : In DA (map fst (merged_targets (high_value_targets c) hv)) /\
                 In HV (map fst (merged_targets (high_value_targets c) hv))).
    { unfold merged_targets. split.
      - apply dd_upd_keeps_key. apply dd_upd_has_key.
      - apply (dd_upd_has_key (fun l => l) HV). }
    destruct (py_set _) as [priv|e]; [|exact Hk].
    destruct (extract_sessions doc priv) as [sd|e]; exact Hk.
Qed.

Lemma running_targets_shape_witness :
  In DA (map fst (high_value_targets
                    (fst (process_file (Ok late_failure_doc)
                            empty_collections)))) /\
  In HV (map fst (high_value_targets
                    (fst (process_file (Ok late_failure_doc)
                            empty_collections)))).
Proof.
  exact (proj2 (running_targets_shape late_failure_world "" [])
           late_failure_doc _ empty_collections eq_refl).
Defined.

(** ** A name that cannot be hashed *)

Lemma priv_list_merged (c : collections) (hv : targets)
  (s : sessions) (u : list json) :
  NoDup (map fst hv) ->
  priv_list {| high_value_targets :=
                 merged_targets (high_value_targets c) hv;
               all_sessions := s;
               unconstrained_delegation_targets := u |} =
  (category DA (high_value_targets c) ++ category DA hv) ++
  (category HV (high_value_targets c) ++ category HV hv).
Proof.
  intros Hnd. unfold priv_list. simpl.
  now rewrite !(category_merged_targets _ _ hv Hnd).
Qed.

Lemma forallb_hashable_grow (a a' b b' : list json) :
  forallb hashable (a ++ b) = false ->
  forallb hashable ((a ++ a') ++ (b ++ b')) = false.
Proof.
  rewrite !forallb_app. intros H.
  apply andb_false_iff in H as [H|H]; rewrite H; simpl;
    rewrite ?andb_false_r; reflexivity.
Qed.

Lemma unhashable_name_step (loaded : result json) (c : collections) :
  forallb hashable (priv_list c) = false ->
  all_sessions (fst (process_file loaded c)) = all_sessions c /\
  unconstrained_delegation_targets (fst (process_file loaded c)) =
    unconstrained_delegation_targets c /\
  forallb hashable (priv_list (fst (process_file loaded c))) = false /\
  snd (process_file loaded c) <> Ok tt.
Proof.
  intros Hc. destruct loaded as [doc|e];
    [|simpl; repeat split; auto; discriminate].
  rewrite process_file_steps.
  destruct (extract_high_value_targets doc) as [hv|e] eqn:Ehv;
    [|simpl; repeat split; auto; discriminate].
  cbv zeta.
  pose proof (priv_list_merged c hv (all_sessions c)
                (unconstrained_delegation_targets c)
                (extract_high_value_targets_keys doc hv Ehv)) as Hl.
  unfold priv_list at 1 in Hl. simpl high_value_targets in Hl.
  assert (Hbad : forallb hashable
                   (category DA (merged_targets (high_value_targets c) hv) ++
                    category HV (merged_targets (high_value_targets c) hv))
                 = false).
  { rewrite Hl. apply forallb_hashable_grow. exact Hc. }
  pose proof (py_set_hashable
                (category DA (merged_targets (high_value_targets c) hv) ++
                 category HV (merged_targets (high_value_targets c) hv)))
    as Hset.
  rewrite Hbad in Hset. destruct Hset as [e He]. rewrite He. simpl.
  repeat split; auto. discriminate.
Qed.

(** X11: a name under "Domain Admins / Enterprise Admins" or "High Value"
    that cannot be hashed (a list or an object) stops session and
    delegation extraction for good: the file that brings it in does not
    complete, and from then on no file completes and the running session
    map and delegation list stay as they are, whatever the files hold. *)
Theorem unhashable_name_stops_extraction :
  (forall doc hv c,
     extract_high_value_targets doc = Ok hv ->
     forallb hashable (category DA hv ++ category HV hv) = false ->
     forallb hashable (priv_list (fst (process_file (Ok doc) c))) = false /\
     exists e, snd (process_file (Ok doc) c) = Raise e) /\
  (forall c, forallb hashable (priv_list c) = false ->
     (forall loaded, snd (process_file loaded c) <> Ok tt) /\
     forall w folder names,
       let c' := fst (process_files w folder names c) in
       all_sessions c' = all_sessions c /\
       unconstrained_delegation_targets c' =
         unconstrained_delegation_targets c /\
       forallb hashable (priv_list c') = false).
Proof.
  split.
  - intros doc hv c Ehv Hbad. rewrite process_file_steps, Ehv. cbv zeta.
    pose proof (priv_list_merged c hv (all_sessions c)
                  (unconstrained_delegation_targets c)
                  (extract_high_value_targets_keys doc hv Ehv)) as Hl.
    assert (Hbad' : forallb hashable
                      ((category DA (high_value_targets c) ++ category DA hv)
                       ++ category HV (high_value_targets c) ++ category HV hv)
                    = false).
    { rewrite !forallb_app in *.
      apply andb_false_iff in Hbad as [H|H]; rewrite H;
        rewrite ?andb_false_r; reflexivity. }
    rewrite <- Hl in Hbad'. unfold priv_list at 1 in Hbad'.
    simpl high_value_targets in Hbad'.
    pose proof (py_set_hashable
                  (category DA (merged_targets (high_value_targets c) hv) ++
                   category HV (merged_targets (high_value_targets c) hv)))
      as Hset.
    rewrite Hbad' in Hset. destruct Hset as [e He]. rewrite He. simpl.
    split; [exact Hbad' | eauto].
  - intros c Hc. split.
    + intros loaded. exact (proj2 (proj2 (proj2
                              (unhashable_name_step loaded c Hc)))).
    + intros w folder names. cbv zeta.
      apply (process_files_invariant
               (fun c' => all_sessions c' = all_sessions c /\
                          unconstrained_delegation_targets c' =
                            unconstrained_delegation_targets c /\
                          forallb hashable (priv_list c') = false));
        [|auto].
      intros loaded c1 [H1 [H2 H3]].
      destruct (unhashable_name_step loaded c1 H3) as [G1 [G2 [G3 _]]].
      rewrite G1, G2. auto.
Qed.

Lemma unhashable_name_stops_extraction_witness :
  all_sessions
    (fst (process_files (one_file_world example_doc) "exports" ["a.json"]
            (fst (process_file (Ok list_name_doc) empty_collections)))) = [].
Proof.
  exact (proj1 (proj2 (proj2 unhashable_name_stops_extraction
                         (fst (process_file (Ok list_name_doc)
                                 empty_collections))
                         eq_refl)
                      (one_file_world example_doc) "exports" ["a.json"])).
Defined.

(** ** The sessions of one file *)

Lemma host_users_ext (p q : pyset) (h : json) (nodes : list json) :
  (forall u, set_mem u p = set_mem u q) ->
  host_users p h nodes = host_users q h nodes.
Proof.
  intros H. unfold host_users, priv_users.
  induction nodes as [|x nodes IH]; simpl; [reflexivity|].
  rewrite IH. f_equal. destruct (py_eq h (node_name x)); [|reflexivity].
  destruct (node_sessions x); [|reflexivity].
  apply filter_ext. exact H.
Qed.

(** X12: when a file completes, the running lists of every category grow
    by the names of its nodes that pass the category's test, and a user is
    then reported for a host exactly when it was before or the file shows
    it logged in there and it is privileged by the lists as they are after
    this growth: the accounts a file brings in count for its own sessions. *)
Theorem file_sessions (doc : json) (c c' : collections) :
  process_file (Ok doc) c = (c', Ok tt) ->
  exists nodes, doc_nodes doc = Ok nodes /\
    (forall k, category k (high_value_targets c') =
               category k (high_value_targets c) ++
               map node_name (filter (in_category k) nodes)) /\
    forall h u,
      set_mem u (sessions_at h (all_sessions c')) =
      set_mem u (sessions_at h (all_sessions c)) ||
      set_mem u (host_users (priv_list c') h nodes).
Proof.
  rewrite process_file_steps.
  destruct (extract_high_value_targets doc) as [hv|e] eqn:Ehv;
    [|discriminate].
  cbv zeta. intros H.
  destruct (extract_high_value_targets_inv doc hv Ehv)
    as [nodes [Hd [_ Hcat]]].
  pose proof (py_set_hashable
                (category DA (merged_targets (high_value_targets c) hv) ++
                 category HV (merged_targets (high_value_targets c) hv)))
    as Hset.
  destruct (py_set _) as [priv|e] eqn:Ep; [|discriminate].
  destruct (forallb hashable _); [|destruct Hset; discriminate].
  inversion Hset; subst priv. clear Hset.
  destruct (extract_sessions doc _) as [sd|e] eqn:Es; [|discriminate].
  inversion H; subst c'. clear H. simpl.
  exists nodes. split; [exact Hd|]. split.
  - intros k.
    rewrite (category_merged_targets k _ hv
               (extract_high_value_targets_keys doc hv Ehv)).
    now rewrite Hcat.
  - intros h u.
    rewrite (merge_sessions_mem u h sd _
               (proj1 (extract_sessions_wf doc _ sd Es))).
    f_equal.
    destruct (extract_sessions_inv doc _ sd Es) as [nodes' [Hd' [_ Hat]]].
    assert (nodes' = nodes) by congruence. subst nodes'.
    rewrite Hat, set_mem_set_update. simpl.
    f_equal. apply host_users_ext. intros v.
    rewrite set_mem_set_update. reflexivity.
Qed.

Lemma file_sessions_witness :
  set_mem (JStr "A")
    (sessions_at (JStr "B")
       (all_sessions (fst (process_file (Ok example_doc) empty_collections))))
  = true.
Proof.
  destruct (file_sessions example_doc empty_collections _ eq_refl)
    as [nodes [Hd [_ H]]].
  rewrite H. injection Hd as <-. reflexivity.
Defined.

(** ** The directory listing *)






Lemma process_files_filter (w : world) (folder : string)
  (names : list string) :
  forall c, process_files w folder names c =
            process_files w folder (filter is_json names) c.
Proof.
  unfold is_json.
  induction names as [|x names IH]; intros c; [reflexivity|].
  cbn [process_files filter].
  destruct (endswith x ".json") eqn:E; [|apply IH].
  cbn [process_files]. rewrite E.
  destruct (process_file (load_json w (path_join folder x)) c) as [c' r].
  now rewrite IH.
Qed.




Lemma prefix_app (a b : string) : prefix a (a ++ b) = true.
Proof.
  induction a as [|c a IH]; simpl; [now destruct b|].
  destruct (ascii_dec c c) as [_|H]; [exact IH | now elim H].
Qed.

(** X14: the loop prints one "Processing" line per [.json] entry, in listing
    order, and besides these at most one more line per entry (that of a
    failure); it never prints the report. *)
Theorem one_processing_line_per_json_entry (w : world) (folder : string)
  (names : list string) (c : collections) :
  let out := snd (process_files w folder names c) in
  filter is_processing_line out =
    map (processing_line folder) (filter is_json names) /\
  (List.length out <= 2 * List.length (filter is_json names))%nat /\
  forallb is_print out = true.
Proof.
  cbv zeta. split; [|split; [|apply process_files_prints]].
  - revert c. unfold is_json.
    induction names as [|x names IH]; intros c; [reflexivity|].
    cbn [process_files filter].
    destruct (endswith x ".json"); [|apply IH].
    destruct (process_file (load_json w (path_join folder x)) c) as [c' r].
    specialize (IH c').
    destruct (process_files w folder names c') as [c'' out].
    cbn [snd] in *. cbn [filter is_processing_line].
    rewrite (prefix_app "Processing " (path_join folder x ++ "...")).
    cbn [map]. unfold processing_line at 1. f_equal.
    destruct r as [u|e]; [exact IH|].
    cbn [filter is_processing_line].
    change (prefix "Processing "
              ("Error processing " ++ x ++ ": " ++ str_exn e)) with false.
    cbv iota. exact IH.
  - revert c. unfold is_json.
    induction names as [|x names IH]; intros c; [simpl; lia|].
    cbn [process_files filter].
    destruct (endswith x ".json"); [|apply IH].
    destruct (process_file (load_json w (path_join folder x)) c) as [c' r].
    specialize (IH c').
    destruct (process_files w folder names c') as [c'' out].
    cbn [snd] in *. destruct r; cbn [List.length]; lia.
Qed.

(** ** The session extractor's failures *)

(** X15: on a document whose [nodes] can be iterated, [extract_sessions]
    returns exactly when every node is a dict with a dict for properties and
    a [sessions] entry that can be iterated, every session and its [user]
    are dicts, every user name is hashable, and every node that has a
    session of a privileged user has a hashable display name; a display
    name that cannot be hashed is harmless on a node without such a
    session. *)
Theorem session_extractor_returns_iff (doc : json) (priv : pyset)
  (nodes : list json) :
  doc_nodes doc = Ok nodes ->
  ((exists sd, extract_sessions doc priv = Ok sd) <->
   forallb (sess_node_ok priv) nodes = true) /\
  (forall node, In node nodes ->
     sess_node_ok priv node = true <->
     node_ok node = true /\
     (exists items, node_sessions node = Ok items /\
                    forallb session_ok items = true) /\
     (hashable (node_name node) = true \/ priv_users priv node = [])).
Proof.
  intros Hd. split.
  - split.
    + intros [sd H].
      destruct (extract_sessions_inv doc priv sd H) as [nodes' [Hd' [Hok _]]].
      congruence.
    + intros Hok.
      destruct (extract_sessions_ok doc priv nodes Hd Hok) as [sd [H _]].
      eauto.
  - intros node _. unfold sess_node_ok.
    rewrite !andb_true_iff, orb_true_iff. split.
    + intros [[Hn Hs] Hh]. split; [exact Hn|]. split.
      * destruct (node_sessions node) as [items|e]; [eauto | discriminate].
      * destruct Hh as [Hh|Hh]; [auto|]. right.
        destruct (priv_users priv node); [reflexivity | discriminate].
    + intros [Hn [[items [Hi Hs]] Hh]]. rewrite Hi. repeat split; auto.
      destruct Hh as [Hh|Hh]; [auto|]. right. now rewrite Hh.
Qed.

Lemma session_extractor_returns_iff_witness :
  exists sd, extract_sessions list_name_doc [JStr "A"] = Ok sd.
Proof.
  exact (proj2 (proj1 (session_extractor_returns_iff list_name_doc
                         [JStr "A"]
                         (match doc_nodes list_name_doc with
                          | Ok l => l | Raise _ => [] end)
                         eq_refl))
           eq_refl).
Defined.

(** ** The report *)

Section ReportFacts.
Variable py_str : json -> string.
Variable iter_set : pyset -> list json.

Lemma bullet_not_none_found (v : json) : bullet py_str v <> none_found.
Proof. unfold bullet, none_found. simpl. intros H. discriminate H. Qed.

Lemma category_block_lines (kv : string * list json) (x : string) :
  In x (category_block py_str kv) -> x <> none_found.
Proof.
  unfold category_block. intros [<-|H].
  - unfold none_found, esc. simpl. intros H. discriminate H.
  - apply in_app_iff in H as [H|[<-|[]]].
    + apply in_map_iff in H as [a [<- Ha]]. apply bullet_not_none_found.
    + unfold none_found, nl. simpl. intros H. discriminate H.
Qed.

Lemma host_block_lines (kv : json * pyset) (x : string) :
  In x (host_block py_str iter_set kv) -> x <> none_found.
Proof.
  unfold host_block. intros [<-|H].
  - unfold none_found, esc. simpl. intros H. discriminate H.
  - apply in_app_iff in H as [H|[<-|[]]].
    + apply in_map_iff in H as [a [<- Ha]]. apply bullet_not_none_found.
    + unfold none_found, nl. simpl. intros H. discriminate H.
Qed.

Lemma length_flat_map_sum {A} (f : A -> list string) (l : list A) :
  List.length (flat_map f l) = list_sum (map (fun x => List.length (f x)) l).
Proof.
  induction l as [|x l IH]; simpl; [reflexivity|].
  now rewrite length_app, IH.
Qed.

(** X16: in what [print_results] prints, the line "No Unconstrained
    Delegation principals found." is there exactly when the delegation list
    is empty; every name of every category and every delegation target has
    its bullet line; and, set iteration visiting each element once, so has
    every user of every host, and the number of lines is three titles, two
    lines plus one per name for each category and each host, and one line
    per delegation target or the single line said above. *)
Theorem report_lines (t : targets) (s : sessions) (u : list json) :
  let lines := print_results_lines py_str iter_set t s u in
  (In none_found lines <-> u = []) /\
  (forall x, In x u -> In (bullet py_str x) lines) /\
  (forall k l a, In (k, l) t -> In a l -> In (bullet py_str a) lines) /\
  ((forall s0, Permutation (iter_set s0) s0) ->
   (forall h us x, In (h, us) s -> In x us -> In (bullet py_str x) lines) /\
   List.length lines =
     (3 + list_sum (map (fun kv => 2 + List.length (snd kv)) t)
        + list_sum (map (fun kv => 2 + List.length (snd kv)) s)
        + Nat.max 1 (List.length u))%nat).
Proof.
  cbv zeta. unfold print_results_lines. split; [|split; [|split]].
  - split.
    + intros H. destruct u as [|x u']; [reflexivity|]. exfalso.
      repeat (apply in_app_iff in H as [H|H]).
      * destruct H as [H|[]]. unfold none_found, nl. simpl in H.
        discriminate H.
      * apply in_flat_map in H as [kv [_ H]].
        exact (category_block_lines kv _ H eq_refl).
      * destruct H as [H|[]]. unfold none_found, nl. simpl in H.
        discriminate H.
      * apply in_flat_map in H as [kv [_ H]].
        exact (host_block_lines kv _ H eq_refl).
      * destruct H as [H|[]]. unfold none_found, nl. simpl in H.
        discriminate H.
      * apply in_map_iff in H as [a [H _]].
        exact (bullet_not_none_found a H).
    + intros ->. repeat (apply in_app_iff; right). now left.
  - intros x Hx. repeat (apply in_app_iff; right).
    destruct u as [|y u']; [contradiction|]. now apply in_map.
  - intros k l a Hin Ha. apply in_app_iff. right. apply in_app_iff. left.
    apply in_flat_map. exists (k, l). split; [exact Hin|].
    unfold category_block. right. apply in_app_iff. left. now apply in_map.
  - intros Hperm. split.
    + intros h us x Hin Hx. do 3 (apply in_app_iff; right).
      apply in_app_iff. left.
      apply in_flat_map. exists (h, us). split; [exact Hin|].
      unfold host_block. right. apply in_app_iff. left. apply in_map.
      simpl. apply (Permutation_in x (Permutation_sym (Hperm us))). exact Hx.
    + rewrite !length_app, !length_flat_map_sum. cbn [List.length].
      assert (Ht : map (fun x => List.length (category_block py_str x)) t =
                   map (fun kv => (2 + List.length (snd kv))%nat) t).
      { apply map_ext. intros kv. unfold category_block.
        cbn [List.length]. rewrite length_app, length_map. simpl. lia. }
      assert (Hs : map (fun x => List.length (host_block py_str iter_set x)) s
                   = map (fun kv => (2 + List.length (snd kv))%nat) s).
      { apply map_ext. intros kv. unfold host_block.
        cbn [List.length]. rewrite length_app, length_map.
        pose proof (Permutation_length (Hperm (snd kv))) as Hl.
        unfold pyset in *. rewrite Hl. simpl. lia. }
      rewrite Ht, Hs.
      destruct u as [|x u']; cbn [List.length]; [lia|].
      rewrite length_map. cbn [List.length]. lia.
Qed.
End ReportFacts.

Lemma report_lines_witness :
  In (bullet report_text (JStr "A"))
     (print_results_lines report_text (fun s => s)
        (high_value_targets example_collections)
        (all_sessions example_collections)
        (unconstrained_delegation_targets example_collections)).
Proof.
  exact (proj1 (proj2 (proj2 (proj2
           (report_lines report_text (fun s => s)
              (high_value_targets example_collections)
              (all_sessions example_collections)
              (unconstrained_delegation_targets example_collections))))
           (fun s0 => Permutation_refl s0))
         (JStr "B") [JStr "A"] (JStr "A")
         (or_introl eq_refl) (or_introl eq_refl)).
Defined.

(** ** Nothing to process *)

(** X17: when the directory holds no entry ending in [.json], [main]
    prints the prompt and the report of three empty collections, and that
    report is its three titles followed by the line "No Unconstrained
    Delegation principals found.". *)
Theorem empty_directory_report (w : world) :
  isdir w (input w) = true ->
  filter is_json (listdir w (input w)) = [] ->
  main w = [Prompt "Enter the path to your BloodHound JSON files: ";
            PrintResults [] [] []] /\
  forall py_str iter_set,
    print_results_lines py_str iter_set [] [] [] =
    [(nl ++ esc ++ "[1;32mTop Accounts to Target (BloodHound Analysis)"
         ++ esc ++ "[0m" ++ nl)%string;
     (nl ++ esc
         ++ "[1;32mPrivileged User Sessions (Lateral Movement Targets)"
         ++ esc ++ "[0m" ++ nl)%string;
     (nl ++ esc ++ "[1;32mPrincipals Trusted for Unconstrained Delegation"
         ++ esc ++ "[0m" ++ nl)%string;
     none_found].
Proof.
  intros Hdir Hnone. split; [|reflexivity].
  unfold main. rewrite Hdir. simpl negb. cbv iota.
  rewrite process_files_filter, Hnone. reflexivity.
Qed.

Lemma empty_directory_report_witness :
  main {| input := "exports";
          isdir := fun _ => true;
          listdir := fun _ => ["notes.txt"; "b.json.bak"];
          load_json := fun _ => Ok example_doc |} =
  [Prompt "Enter the path to your BloodHound JSON files: ";
   PrintResults [] [] []].
Proof.
  exact (proj1 (empty_directory_report
                  {| input := "exports";
                     isdir := fun _ => true;
                     listdir := fun _ => ["notes.txt"; "b.json.bak"];
                     load_json := fun _ => Ok example_doc |}
                  eq_refl eq_refl)).
Defined.


